(** * cirrus-geo: payload state orchestration

    A shallow embedding of [src/cirrus/lib/process_payload.py]
    (classes [ProcessPayload] and [ProcessPayloads]) together with the
    topic publisher exercised by [tests/lib/test_utils.py].

    Python values are JSON values; a [dict] is an insertion-ordered
    association list; exceptions are values of [exn] carried by [result];
    calls to collaborators (blob store, state store, execution engine) are
    recorded in a trace and answered by a [World]. *)

From Stdlib Require Import String Ascii ZArith List Bool Lia Permutation.
From Stdlib Require Import DecimalString.
From stdpp Require Import base list sorting strings.
Import ListNotations.
Local Open Scope string_scope.
Local Open Scope Z_scope.
Local Open Scope list_scope.

(** ** Exceptions and results *)

(** The exception classes the module raises or inspects.  [ClientError]
    is botocore's, with [e.response["Error"]["Code"]] and its text;
    [TerminalError] is the class declared at the top of the module.  Every
    constructor but [ClientError] and [TerminalError] stands for a Python
    [Exception] subclass that only the generic handler catches. *)
Inductive exn : Type :=
| ClientError (code msg : string)
| TerminalError
| ValueError (msg : string)
| TypeError (msg : string)
| KeyError (key : string)
| IndexError (msg : string)
| AttributeError (msg : string)
| RuntimeError (msg : string)
| OtherException (cls msg : string).

(** [str(e)] *)
Definition exn_str (e : exn) : string :=
  match e with
  | ClientError code msg => msg
  | TerminalError => ""
  | ValueError m | TypeError m | IndexError m | AttributeError m
  | RuntimeError m => m
  | KeyError k => "'" +:+ k +:+ "'"
  | OtherException _ m => m
  end.

Inductive result (A : Type) : Type :=
| Ok (a : A)
| Raise (e : exn).
Arguments Ok {A} a.
Arguments Raise {A} e.

Definition rbind {A B} (r : result A) (k : A -> result B) : result B :=
  match r with
  | Ok a => k a
  | Raise e => Raise e
  end.

Notation "x <~ e ;; k" := (rbind e (fun x => k))
  (at level 100, e at next level, right associativity).

Definition is_ok {A} (r : result A) : bool :=
  match r with Ok _ => true | Raise _ => false end.

(** ** JSON values and Python's operations on them *)

#[local] Set Warnings "-register-all".

Inductive json : Type :=
| JNull
| JBool (b : bool)
| JNum (n : Z)
| JStr (s : string)
| JArr (xs : list json)
| JObj (kvs : list (string * json)).

(** A Python [dict] with string keys: insertion-ordered, keys unique. *)
Definition dict (V : Type) : Type := list (string * V).

Fixpoint dict_get {V} (k : string) (d : dict V) : option V :=
  match d with
  | [] => None
  | (k', v) :: d' => if String.eqb k k' then Some v else dict_get k d'
  end.

Definition dict_mem {V} (k : string) (d : dict V) : bool :=
  match dict_get k d with Some _ => true | None => false end.

(** [d[k] = v]: rebinding keeps the key's position, a new key goes last. *)
Fixpoint dict_set {V} (k : string) (v : V) (d : dict V) : dict V :=
  match d with
  | [] => [(k, v)]
  | (k', v') :: d' =>
      if String.eqb k k' then (k, v) :: d' else (k', v') :: dict_set k v d'
  end.

(** [del d[k]] on a present key *)
Fixpoint dict_del {V} (k : string) (d : dict V) : dict V :=
  match d with
  | [] => []
  | (k', v') :: d' =>
      if String.eqb k k' then d' else (k', v') :: dict_del k d'
  end.

Module Py.

(** [needle in hay] on two [str] *)
Fixpoint str_contains (needle hay : string) : bool :=
  String.prefix needle hay
  || match hay with
     | EmptyString => false
     | String _ hay' => str_contains needle hay'
     end.

(** [bool(v)] *)
Definition truthy (v : json) : bool :=
  match v with
  | JNull => false
  | JBool b => b
  | JNum n => negb (n =? 0)
  | JStr s => negb (String.eqb s "")
  | JArr xs => match xs with [] => false | _ => true end
  | JObj kvs => match kvs with [] => false | _ => true end
  end.

Definition is_str (k : string) (v : json) : bool :=
  match v with JStr s => String.eqb k s | _ => false end.

(** [k in v] for a [str] [k]: key of a dict, element of a list,
    substring of a str; other operands are not iterable. *)
Definition contains (k : string) (v : json) : result bool :=
  match v with
  | JObj kvs => Ok (dict_mem k kvs)
  | JArr xs => Ok (existsb (is_str k) xs)
  | JStr s => Ok (str_contains k s)
  | _ => Raise (TypeError "argument is not iterable")
  end.

(** [v[k]] for a [str] [k] *)
Definition getitem (v : json) (k : string) : result json :=
  match v with
  | JObj kvs =>
      match dict_get k kvs with
      | Some x => Ok x
      | None => Raise (KeyError k)
      end
  | JArr _ => Raise (TypeError "list indices must be integers or slices, not str")
  | JStr _ => Raise (TypeError "string indices must be integers")
  | _ => Raise (TypeError "object is not subscriptable")
  end.

(** [v.get(k, default)] *)
Definition get (v : json) (k : string) (default : json) : result json :=
  match v with
  | JObj kvs =>
      match dict_get k kvs with
      | Some x => Ok x
      | None => Ok default
      end
  | _ => Raise (AttributeError "object has no attribute 'get'")
  end.

(** [v[k] = x] for a [str] [k] *)
Definition setitem (v : json) (k : string) (x : json) : result json :=
  match v with
  | JObj kvs => Ok (JObj (dict_set k x kvs))
  | JArr _ => Raise (TypeError "list indices must be integers or slices, not str")
  | _ => Raise (TypeError "object does not support item assignment")
  end.

(** the elements a [for] loop or a comprehension visits *)
Definition iter (v : json) : result (list json) :=
  match v with
  | JArr xs => Ok xs
  | JObj kvs => Ok (map (fun kv => JStr (fst kv)) kvs)
  | JStr s => Ok (map (fun c => JStr (String c EmptyString)) (list_ascii_of_string s))
  | _ => Raise (TypeError "object is not iterable")
  end.

(** the members of a set or the keys of a dict must be hashable *)
Definition hashable (v : json) : bool :=
  match v with
  | JArr _ | JObj _ => false
  | _ => true
  end.

(** [a == v] where [a] is hashable (no list, no dict): [True == 1] and
    [False == 0] hold, a str equals only the same str. *)
Definition eq_atom (a v : json) : bool :=
  match a, v with
  | JNull, JNull => true
  | JStr s, JStr t => String.eqb s t
  | JNum n, JNum m => n =? m
  | JBool b, JBool c => Bool.eqb b c
  | JNum n, JBool c => n =? (if c then 1 else 0)
  | JBool b, JNum m => (if b then 1 else 0) =? m
  | _, _ => false
  end.

(** [a in l] for a list [l] and a hashable [a] *)
Definition in_list (a : json) (l : list json) : bool := existsb (eq_atom a) l.

(** decimal text of an integer, as [str(n)] prints it *)
Definition str_of_Z (n : Z) : string := NilZero.string_of_int (Z.to_int n).

(** byte-wise (code point) order of [str], which [sorted] uses *)
Fixpoint str_leb (a b : string) : bool :=
  match a, b with
  | EmptyString, _ => true
  | String _ _, EmptyString => false
  | String x a', String y b' =>
      if (nat_of_ascii x <? nat_of_ascii y)%nat then true
      else if Ascii.eqb x y then str_leb a' b' else false
  end.

Definition str_le (a b : string) : Prop := str_leb a b = true.

#[global] Instance str_le_dec a b : Decision (str_le a b).
Proof. unfold str_le. apply _. Defined.

(** [sorted(l)] on a list of [str] *)
Definition sorted (l : list string) : list string := merge_sort str_le l.

(** [sorted(set(l))] on a list of [str]: every value once, in order *)
Definition sorted_set (l : list string) : list string :=
  sorted (remove_dups l).

(** ["/".join(l)] *)
Definition join (sep : string) (l : list string) : string := String.concat sep l.

End Py.

(** [[f x for x in l]]: the first exception ends the comprehension *)
Fixpoint rmap {A B} (f : A -> result B) (l : list A) : result (list B) :=
  match l with
  | [] => Ok []
  | x :: l' => y <~ f x ;; ys <~ rmap f l' ;; Ok (y :: ys)
  end.

(** What a generator hands out before it ends: the values yielded, then
    the exception that ended it, if one did. *)
Definition gen (A : Type) : Type := (list A * option exn)%type.

(** one [yield] per element of [l], up to the first exception *)
Fixpoint gen_for {A B} (f : A -> result B) (l : list A) : gen B :=
  match l with
  | [] => ([], None)
  | x :: l' =>
      match f x with
      | Raise e => ([], Some e)
      | Ok y => let '(ys, e) := gen_for f l' in (y :: ys, e)
      end
  end.

(** ** Collaborators *)

(** Modelled from the spec: [cirrus.lib.enums.StateEnum] is not part of the
    sources at hand; the members are the lifecycle states the data model
    lists. *)
Inductive StateEnum : Type :=
| PROCESSING | CLAIMED | COMPLETED | FAILED | ABORTED | INVALID.

Definition StateEnum_eqb (a b : StateEnum) : bool :=
  match a, b with
  | PROCESSING, PROCESSING | CLAIMED, CLAIMED | COMPLETED, COMPLETED
  | FAILED, FAILED | ABORTED, ABORTED | INVALID, INVALID => true
  | _, _ => false
  end.

(** Every call that leaves the process, in the order it is made. *)
Inductive event : Type :=
| S3UploadJson (body : json) (url : string)
| ClaimProcessing (payload_id : json) (payload_url arn_base : string)
| StartExecution (stateMachineArn name input : string)
| StartedProcessing (payload_id : json) (execution_arn payload_url : string)
| Skipping (payload_id : json) (state : option StateEnum) (payload_url : string)
| Failed (payload_id : json) (message payload_url : string)
| Duplicated (payload_id : json) (payload_url : string)
| GetDbitems (payload_ids : list json).

Definition trace : Type := list event.

(** Modelled from the spec: [WorkflowEventManager] and [StateDB]
    ([cirrus.lib.events], [cirrus.lib.statedb]) and the helpers of
    [cirrus.lib.utils] are not part of the sources at hand.  Following the
    external interfaces of the spec, [Claim], [Start], [RecordStarted],
    [PutJSON] and [BatchGetStates] answer with a value or an exception,
    which may depend on everything that happened before; [RecordFailed],
    [RecordSkipped] and [RecordDuplicate] only record.  The library
    functions [json.dumps], [str] on a value that is not a [str],
    [jsonpath.parse(..).find] (seen as a function of the path and of the
    document's [features] entry), [uuid.uuid1] and [os.getenv] are fields
    of the same record. *)
Record World : Type := {
  json_dumps : json -> string;
  py_repr : json -> string;
  jsonpath_find : string -> option json -> result (list json);
  uuid1 : trace -> string;
  getenv : string -> option string;
  s3_upload_json : trace -> json -> string -> option exn;
  claim_processing : trace -> json -> string -> string -> result string;
  start_execution : trace -> string -> string -> string -> option exn;
  started_processing : trace -> json -> string -> string -> option exn;
  get_dbitems : trace -> list json -> result (list (string * StateEnum));
  payload_id_to_url : json -> string
}.

(** Computations that call collaborators: the trace is threaded through,
    an exception stops the rest. *)
Definition M (A : Type) : Type := trace -> trace * result A.

Definition ret {A} (a : A) : M A := fun tr => (tr, Ok a).

Definition throw {A} (e : exn) : M A := fun tr => (tr, Raise e).

Definition bind {A B} (m : M A) (k : A -> M B) : M B :=
  fun tr =>
    match m tr with
    | (tr', Ok a) => k a tr'
    | (tr', Raise e) => (tr', Raise e)
    end.

Definition lift {A} (r : result A) : M A := fun tr => (tr, r).

Notation "x <- e ;; k" := (bind e (fun x => k))
  (at level 100, e at next level, right associativity).

(** a call that returns nothing: recorded, then answered *)
Definition call_unit (ev : event) (answer : trace -> option exn) : M unit :=
  fun tr =>
    (tr ++ [ev], match answer tr with Some e => Raise e | None => Ok tt end).

(** a call that returns a value *)
Definition call_val {A} (ev : event) (answer : trace -> result A) : M A :=
  fun tr => (tr ++ [ev], answer tr).

(** a call that only records *)
Definition record (ev : event) : M unit := fun tr => (tr ++ [ev], Ok tt).

Definition MAX_PAYLOAD_LENGTH : Z := 250000.

(** ** class ProcessPayload(dict) *)

Module ProcessPayload.

(** An instance: the entries of the [dict] itself and the attributes
    that [__init__] binds.  [process] and [features] are bound once, to
    the first step and to the [features] entry; rebinding a key of the
    dict later does not change them. *)
Record t : Type := mk {
  items : dict json;
  process : json;
  features : json;
  tasks : json;
  state_item : option json
}.

Definition with_items (self : t) (d : dict json) : t :=
  mk d (process self) (features self) (tasks self) (state_item self).

Section WithWorld.

Variable w : World.

(** a replacement field of an f-string *)
Definition format (v : json) : string :=
  match v with
  | JStr s => s
  | _ => py_repr w v
  end.

(** [sorted] and [str.join] accept nothing but [str] here: a value of
    another type makes one of the two raise [TypeError]. *)
Definition all_str (vs : list json) : result (list string) :=
  rmap (fun v => match v with
                 | JStr s => Ok s
                 | _ => Raise (TypeError "expected str instance")
                 end) vs.

(** one turn of [{i["collection"] for i in self.features if "collection" in i}] *)
Definition feature_collection (i : json) : result (option json) :=
  b <~ Py.contains "collection" i ;;
  if b then
    v <~ Py.getitem i "collection" ;;
    if Py.hashable v then Ok (Some v)
    else Raise (TypeError "unhashable type")
  else Ok None.

(** [cols] *)
Definition collections (features : json) : result (list string) :=
  elems <~ Py.iter features ;;
  vs <~ rmap feature_collection elems ;;
  strs <~ all_str (omap id vs) ;;
  Ok (Py.sorted_set strs).

(** [items_str] *)
Definition items_str (features : json) : result string :=
  elems <~ Py.iter features ;;
  ids <~ rmap (fun i => Py.getitem i "id") elems ;;
  strs <~ all_str ids ;;
  Ok (Py.join "/" (Py.sorted strs)).

(** the value [set_id] binds to ["id"], from the active step and the
    features *)
Definition derive_id (process features : json) : result string :=
  has <~ Py.contains "collections" process ;;
  collections_str <~
    (if has then Py.getitem process "collections"
     else
       cols <~ collections features ;;
       Ok (JStr (match cols with
                 | [] => "none"
                 | _ => Py.join "/" cols
                 end))) ;;
  its <~ items_str features ;;
  workflow <~ Py.getitem process "workflow" ;;
  Ok (format collections_str +:+ "/workflow-" +:+ format workflow
      +:+ "/" +:+ its).

Definition set_id (self : t) : result t :=
  if dict_mem "id" (items self) then Ok self
  else if negb (Py.truthy (features self)) then
    Raise (ValueError "ProcessPayload has no `id` specified and one cannot be constructed without `features`.")
  else
    i <~ derive_id (process self) (features self) ;;
    Ok (with_items self (dict_set "id" (JStr i) (items self))).

(** [self["id"]] once [set_id] has run *)
Definition identity (self : t) : result json :=
  self' <~ set_id self ;;
  match dict_get "id" (items self') with
  | Some i => Ok i
  | None => Raise (KeyError "id")
  end.

(** [if "links" not in item: item["links"] = []] *)
Definition add_links (item : json) : result json :=
  b <~ Py.contains "links" item ;;
  if b then Ok item else Py.setitem item "links" (JArr []).

(** the loop over [self.features]; the items of a list are updated in
    place, the keys of a dict and the characters of a str are not part
    of the object *)
Definition normalize_features (features : json) : result json :=
  elems <~ Py.iter features ;;
  elems' <~ rmap add_links elems ;;
  Ok (match features with
      | JArr _ => JArr elems'
      | _ => features
      end).

Definition require (key msg : string) (step : json) : result unit :=
  b <~ Py.contains key step ;;
  if b then Ok tt else Raise (ValueError msg).

(** [ProcessPayload(raw, set_id_if_missing=.., state_item=..)] *)
Definition init (raw : dict json) (set_id_if_missing : bool)
    (state_item : option json) : result t :=
  match dict_get "process" raw with
  | None =>
      Raise (ValueError "ProcessPayload must have a `process` array of process definintions")
  | Some (JArr (step :: _)) =>
      let feats :=
        match dict_get "features" raw with
        | Some f => f
        | None => JArr []
        end in
      let self0 := mk raw step feats JNull None in
      self1 <~ (if negb (dict_mem "id" raw) && set_id_if_missing
                then set_id self0 else Ok self0) ;;
      _ <~ require "upload_options"
             "ProcessPayload.process must have `upload_options` defined" step ;;
      _ <~ require "workflow"
             "ProcessPayload.process must have `workflow` specifying workflow name" step ;;
      _ <~ require "tasks"
             "ProcessPayload.process must have `tasks` defined" step ;;
      tks <~ Py.getitem step "tasks" ;;
      match dict_get "id" (items self1) with
      | None => Raise (KeyError "id")
      | Some i =>
          ok <~ Py.contains "workflow-" i ;;
          if negb ok then
            Raise (ValueError ("Invalid payload id: " +:+ format i))
          else
            feats' <~ normalize_features feats ;;
            let d := if dict_mem "features" raw
                     then dict_set "features" feats' (items self1)
                     else items self1 in
            Ok (mk d step feats' tks state_item)
      end
  | Some _ =>
      Raise (TypeError "ProcessPayload `process` must be an array with at least one process definition")
  end.

(** the body of the loop of [next_payloads], on a fresh deep copy of
    [self] *)
Definition successor (self : t) (step : json) : result t :=
  if negb (dict_mem "id" (items self)) then Raise (KeyError "id")
  else
    let d1 := dict_del "id" (items self) in
    match dict_get "process" d1 with
    | None => Raise (KeyError "process")
    | Some (JArr []) => Raise (IndexError "pop from empty list")
    | Some (JArr [_]) => Raise (IndexError "list assignment index out of range")
    | Some (JArr (_ :: _ :: rest)) =>
        let d2 := dict_set "process" (JArr (step :: rest)) d1 in
        has <~ Py.contains "chain_filter" step ;;
        if has then
          cf <~ Py.getitem step "chain_filter" ;;
          found <~ jsonpath_find w ("$.features[?(" +:+ format cf +:+ ")]")
                     (dict_get "features" d2) ;;
          Ok (with_items self (dict_set "features" (JArr found) d2))
        else Ok (with_items self d2)
    | Some (JObj _) => Raise (KeyError "0")
    | Some _ => Raise (AttributeError "object has no attribute 'pop'")
    end.

(** [next_payloads]: a generator; nothing runs before the first
    value is asked for, and an exception ends it. *)
Definition next_payloads (self : t) : gen t :=
  match dict_get "process" (items self) with
  | None => ([], Some (KeyError "process"))
  | Some (JArr ps) =>
      match ps with
      | _ :: second :: _ =>
          match second with
          | JObj _ => gen_for (successor self) [second]
          | _ =>
              match Py.iter second with
              | Ok next_processes => gen_for (successor self) next_processes
              | Raise e => ([], Some e)
              end
          end
      | _ => ([], None)
      end
  | Some (JStr s) =>
      match s with
      | String _ (String c _) =>
          gen_for (successor self) [JStr (String c EmptyString)]
      | _ => ([], None)
      end
  | Some (JObj kvs) =>
      match kvs with
      | _ :: _ :: _ => ([], Some (KeyError "1"))
      | _ => ([], None)
      end
  | Some _ => ([], Some (TypeError "object has no len()"))
  end.

End WithWorld.

End ProcessPayload.

(** ** Starting a workflow *)

Module Launch.
Import ProcessPayload.

Section WithWorld.

Variable w : World.

(** [os.getenv(name, None)] followed by [if not value] *)
Definition getenv_nonempty (name : string) : option string :=
  match getenv w name with
  | Some s => if String.eqb s "" then None else Some s
  | None => None
  end.

(** [ProcessPayload.upload_to_s3(payload, bucket)] *)
Definition upload_to_s3 (payload : dict json) (bucket : option string)
    : M json :=
  match dict_get "url" payload with
  | Some u => ret u
  | None =>
      match (match bucket with
             | Some b => Some b
             | None => getenv w "CIRRUS_PAYLOAD_BUCKET"
             end) with
      | None => throw (KeyError "CIRRUS_PAYLOAD_BUCKET")
      | Some b =>
          fun tr =>
            let url := "s3://" +:+ b +:+ "/payloads/" +:+ uuid1 w tr +:+ ".json" in
            bind (call_unit (S3UploadJson (JObj payload) url)
                    (fun tr' => s3_upload_json w tr' (JObj payload) url))
                 (fun _ => ret (JStr url)) tr
      end
  end.

(** [len(json.dumps(self).encode())]: the text [json.dumps] returns is
    ASCII, one byte per character *)
Definition payload_length (self : t) : Z :=
  Z.of_nat (String.length (json_dumps w (JObj (items self)))).

Definition too_large_msg (n : Z) : string :=
  "No payload bucket defined and payload too large: length "
  +:+ Py.str_of_Z n +:+ " (max " +:+ Py.str_of_Z MAX_PAYLOAD_LENGTH
  +:+ "). To enable uploads oversized payloads define `CIRRUS_PAYLOAD_BUCKET`.".

(** [self.get_payload()] *)
Definition get_payload (self : t) : M (dict json) :=
  if payload_length self <=? MAX_PAYLOAD_LENGTH then ret (items self)
  else
    match getenv_nonempty "CIRRUS_PAYLOAD_BUCKET" with
    | None => throw (RuntimeError (too_large_msg (payload_length self)))
    | Some payload_bucket =>
        url <- upload_to_s3 (items self) (Some payload_bucket) ;;
        ret [("url", url)]
    end.

(** the [try] block of [__call__] *)
Definition start_workflow (self : t) (id : json) (arn url : string)
    : M json :=
  _ <- call_unit (S3UploadJson (JObj (items self)) url)
         (fun tr => s3_upload_json w tr (JObj (items self)) url) ;;
  execution_name <- call_val (ClaimProcessing id url arn)
         (fun tr => claim_processing w tr id url arn) ;;
  payload <- get_payload self ;;
  let input := json_dumps w (JObj payload) in
  _ <- call_unit (StartExecution arn execution_name input)
         (fun tr => start_execution w tr arn execution_name input) ;;
  let execution_arn := arn +:+ ":" +:+ execution_name in
  _ <- call_unit (StartedProcessing id execution_arn url)
         (fun tr => started_processing w tr id execution_arn url) ;;
  ret id.

(** the [except] clauses of [__call__], applied to the outcome of the
    [try] block *)
Definition handle (id : json) (url : string) (r : result json)
    : M (option json) :=
  match r with
  | Ok i => ret (Some i)
  | Raise (ClientError code msg) =>
      if String.eqb code "ConditionalCheckFailedException" then
        _ <- record (Skipping id (Some PROCESSING) url) ;;
        ret None
      else if String.eqb code "StateMachineDoesNotExist" then
        _ <- record (Failed id (exn_str (ClientError code msg)) url) ;;
        throw TerminalError
      else throw (ClientError code msg)
  | Raise e =>
      let msg := "failed starting workflow (" +:+ exn_str e +:+ ")" in
      _ <- record (Failed id msg url) ;;
      throw e
  end.

(** [arn = os.getenv("CIRRUS_BASE_WORKFLOW_ARN") + self.process["workflow"]] *)
Definition workflow_arn (self : t) : result string :=
  workflow <~ Py.getitem (process self) "workflow" ;;
  match getenv w "CIRRUS_BASE_WORKFLOW_ARN", workflow with
  | Some base, JStr name => Ok (base +:+ name)
  | _, _ => Raise (TypeError "unsupported operand type(s) for +")
  end.

(** [url = f"s3://{payload_bucket}/{self['id']}/input.json"] *)
Definition input_url (payload_bucket : string) (id : json) : string :=
  "s3://" +:+ payload_bucket +:+ "/" +:+ format w id +:+ "/input.json".

(** [self(wfem)]: the identity when the workflow was started, [None]
    when the claim was lost *)
Definition call (self : t) : M (option json) :=
  match getenv_nonempty "CIRRUS_PAYLOAD_BUCKET" with
  | None => throw (ValueError "env var CIRRUS_PAYLOAD_BUCKET must be defined")
  | Some payload_bucket =>
      arn <- lift (workflow_arn self) ;;
      match dict_get "id" (items self) with
      | None => throw (KeyError "id")
      | Some id =>
          let url := input_url payload_bucket id in
          fun tr =>
            let '(tr', r) := start_workflow self id arn url tr in
            handle id url r tr'
      end
  end.

End WithWorld.

End Launch.

(** ** class ProcessPayloads *)

Module ProcessPayloads.

Record t : Type := mk {
  payloads : list ProcessPayload.t;
  state_items : option (list (string * StateEnum))
}.

(** [ProcessPayloads(process_payloads, statedb, state_items)] *)
Definition init (process_payloads : list ProcessPayload.t)
    (state_items : option (list (string * StateEnum))) : result t :=
  match state_items with
  | Some (_ :: _ as its) =>
      if negb (length its =? length process_payloads)%nat then
        Raise (ValueError "The number of state items does not match the number of payloads")
      else Ok (mk process_payloads state_items)
  | _ => Ok (mk process_payloads state_items)
  end.

(** the mapping [process] returns *)
Record ids : Type := mk_ids {
  started : list json;
  skipped : list json;
  dropped : list json;
  failed : list json
}.

Definition no_ids : ids := mk_ids [] [] [] [].

Definition add_started (r : ids) (i : json) : ids :=
  mk_ids (started r ++ [i]) (skipped r) (dropped r) (failed r).
Definition add_skipped (r : ids) (i : json) : ids :=
  mk_ids (started r) (skipped r ++ [i]) (dropped r) (failed r).
Definition add_dropped (r : ids) (i : json) : ids :=
  mk_ids (started r) (skipped r) (dropped r ++ [i]) (failed r).
Definition add_failed (r : ids) (i : json) : ids :=
  mk_ids (started r) (skipped r) (dropped r) (failed r ++ [i]).

(** [payload[key]] on the dict of an envelope *)
Definition item (key : string) (p : ProcessPayload.t) : result json :=
  match dict_get key (ProcessPayload.items p) with
  | Some v => Ok v
  | None => Raise (KeyError key)
  end.

(** [states.get(id)]: the keys of [states] are [str] *)
Definition states_get (states : dict StateEnum) (id : json)
    : result (option StateEnum) :=
  match id with
  | JStr s => Ok (dict_get s states)
  | JArr _ | JObj _ => Raise (TypeError "unhashable type")
  | _ => Ok None
  end.

(** the first test of the loop: the identity is already in one of
    [started], [skipped], [failed] *)
Definition seen (r : ids) (id : json) : bool :=
  Py.in_list id (started r) || Py.in_list id (skipped r)
  || Py.in_list id (failed r).

(** [state == member] for the result of [states.get] *)
Definition state_is (state : option StateEnum) (member : StateEnum) : bool :=
  match state with
  | Some st => StateEnum_eqb st member
  | None => false
  end.

(** the second test: [FAILED], [ABORTED], no state, or [_replace] *)
Definition may_start (state : option StateEnum) (_replace : bool) : bool :=
  state_is state FAILED || state_is state ABORTED
  || match state with None => true | Some _ => false end
  || _replace.

(** [_replace = replace or payload.process.get("replace", False)], as
    the tests of the loop read it *)
Definition replace_flag (replace : bool) (payload : ProcessPayload.t)
    : result bool :=
  if replace then Ok true
  else
    v <~ Py.get (ProcessPayload.process payload) "replace" (JBool false) ;;
    Ok (Py.truthy v).

Section WithWorld.

Variable w : World.

(** [{c["payload_id"]: StateEnum(c["state"]) for c in self.state_items}] *)
Definition states_of (its : list (string * StateEnum)) : dict StateEnum :=
  fold_left (fun d kv => dict_set (fst kv) (snd kv) d) its [].

(** [get_states]; the items fetched are also kept on the object,
    which the result of [process] does not show *)
Definition get_states (self : t) : M (dict StateEnum) :=
  match state_items self with
  | Some its => ret (states_of its)
  | None =>
      payload_ids <- lift (rmap (item "id") (payloads self)) ;;
      its <- call_val (GetDbitems payload_ids)
               (fun tr => get_dbitems w tr payload_ids) ;;
      ret (states_of its)
  end.

(** [payload(wfem)] under [try .. except TerminalError .. else] *)
Definition attempt (r : ids) (id : json) (payload : ProcessPayload.t)
    : M ids :=
  fun tr =>
    match Launch.call w payload tr with
    | (tr', Raise TerminalError) => (tr', Ok (add_failed r id))
    | (tr', Raise e) => (tr', Raise e)
    | (tr', Ok (Some payload_id)) => (tr', Ok (add_started r payload_id))
    | (tr', Ok None) => (tr', Ok (add_skipped r id))
    end.

(** one turn of the loop of [process] *)
Definition process_step (replace : bool) (states : dict StateEnum)
    (r : ids) (payload : ProcessPayload.t) : M ids :=
  _replace <- lift (replace_flag replace payload) ;;
  id <- lift (item "id" payload) ;;
  state <- lift (states_get states id) ;;
  if seen r id then
    _ <- record (Duplicated id (payload_id_to_url w id)) ;;
    ret (add_dropped r id)
  else if may_start state _replace then attempt r id payload
  else
    _ <- record (Skipping id state (payload_id_to_url w id)) ;;
    ret (add_skipped r id).

Fixpoint process_loop (replace : bool) (states : dict StateEnum)
    (ps : list ProcessPayload.t) (r : ids) : M ids :=
  match ps with
  | [] => ret r
  | payload :: ps' =>
      r' <- process_step replace states r payload ;;
      process_loop replace states ps' r'
  end.

(** [self.process(wfem, replace)] *)
Definition process (self : t) (replace : bool) : M ids :=
  states <- get_states self ;;
  process_loop replace states (payloads self) no_ids.

End WithWorld.

End ProcessPayloads.

(** ** Topic publisher *)

Module Publisher.

(** Modelled from the spec: [SNSMessage], the size-bounded batch handler
    and [SNSPublisher] live in [cirrus.lib.utils], which is not part of
    the sources at hand; only their test is.  An item is a body with
    optional attributes. *)
Record SNSMessage : Type := mk_message {
  body : string;
  attributes : option (dict json)
}.

(** Modelled from the spec: the accumulator of the batch handler: the
    flush threshold, the buffer, and the batches handed to the sink so
    far (one provider batch publish call each). *)
Record t : Type := mk {
  batch_size : nat;
  _batch : list SNSMessage;
  sent : list (list SNSMessage)
}.

Definition get_handler (batch_size : nat) : t := mk batch_size [] [].

(** Modelled from the spec: [Execute()] hands the buffered items to the
    sink and clears the buffer; with an empty buffer the sink is not
    invoked. *)
Definition execute (h : t) : t :=
  match _batch h with
  | [] => h
  | items => mk (batch_size h) [] (sent h ++ [items])
  end.

(** Modelled from the spec: the size-bounded [Add]: append, then flush
    once the buffer has reached the threshold. *)
Definition add_bounded (m : SNSMessage) (h : t) : t :=
  let h' := mk (batch_size h) (_batch h ++ [m]) (sent h) in
  if (batch_size h' <=? length (_batch h'))%nat then execute h' else h'.

Definition attribute_count (m : SNSMessage) : nat :=
  match attributes m with
  | Some attrs => length attrs
  | None => 0%nat
  end.

(** Modelled from the spec: [Add] of the topic publisher: more than 10
    attributes on one item is a validation error raised before
    buffering. *)
Definition add (m : SNSMessage) (h : t) : result t :=
  if (10 <? attribute_count m)%nat then
    Raise (ValueError "SNS messages may only have 10 attributes")
  else Ok (add_bounded m h).

(** the body of a [with] block that adds the items one by one: the
    handler as the block leaves it, and the exception that ended the
    block, if one did *)
Fixpoint add_each (ms : list SNSMessage) (h : t) : t * option exn :=
  match ms with
  | [] => (h, None)
  | m :: ms' =>
      match add m h with
      | Ok h' => add_each ms' h'
      | Raise e => (h, Some e)
      end
  end.

(** Modelled from the spec: the scoped form flushes what is left on
    every exit, then lets the exception of the block through. *)
Definition publish_all (batch_size : nat) (ms : list SNSMessage)
    : t * option exn :=
  let '(h, e) := add_each ms (get_handler batch_size) in (execute h, e).

(** everything the downstream sink has received, in order *)
Definition received (h : t) : list SNSMessage := concat (sent h).

End Publisher.

(** ** A world to run the model in *)

Module Reference.

(** [json.dumps] with its default separators, for the values of the
    examples: text without control or non-ASCII characters. *)
Definition dquote : ascii := ascii_of_nat 34.

Fixpoint escape (s : string) : string :=
  match s with
  | EmptyString => EmptyString
  | String c s' =>
      if Ascii.eqb c dquote then String "\"%char (String c (escape s'))
      else if Ascii.eqb c "\"%char then String "\"%char (String c (escape s'))
      else String c (escape s')
  end.

Definition quote (s : string) : string :=
  String dquote (escape s) +:+ String dquote EmptyString.

Fixpoint dumps (v : json) : string :=
  match v with
  | JNull => "null"
  | JBool true => "true"
  | JBool false => "false"
  | JNum n => Py.str_of_Z n
  | JStr s => quote s
  | JArr xs => "[" +:+ Py.join ", " (map dumps xs) +:+ "]"
  | JObj kvs =>
      "{" +:+ Py.join ", "
                (map (fun kv => match kv with
                                | (k, x) => quote k +:+ ": " +:+ dumps x
                                end) kvs)
      +:+ "}"
  end.

(** A deployment with the bucket [bucket] (or none) in its environment,
    whose engine answers a start request with [start], whose claim
    answers with [claim], and whose path queries find [found]. *)
Definition world (bucket : option string) (claim : result string)
    (start : option exn) (found : list json) : World :=
  {| json_dumps := dumps;
     py_repr := dumps;
     jsonpath_find := fun _ _ => Ok found;
     uuid1 := fun tr => Py.str_of_Z (Z.of_nat (length tr));
     getenv := fun name =>
       if String.eqb name "CIRRUS_PAYLOAD_BUCKET" then bucket
       else if String.eqb name "CIRRUS_BASE_WORKFLOW_ARN"
            then Some "arn:aws:states:us-west-2:123456789012:stateMachine:"
            else None;
     s3_upload_json := fun _ _ _ => None;
     claim_processing := fun _ _ _ _ => claim;
     start_execution := fun _ _ _ _ => start;
     started_processing := fun _ _ _ _ => None;
     get_dbitems := fun _ _ => Ok [];
     payload_id_to_url := fun id =>
       "s3://payloads/"
       +:+ match id with JStr s => s | _ => dumps id end
       +:+ "/input.json" |}.

Definition step (workflow : string) (extra : dict json) : json :=
  JObj ([("workflow", JStr workflow); ("upload_options", JObj []);
         ("tasks", JObj [])] ++ extra).

Definition feature (id collection : string) : json :=
  JObj [("id", JStr id); ("collection", JStr collection)].

(** an envelope with one step and three features, without identity *)
Definition raw_single : dict json :=
  [("process", JArr [step "publish" []]);
   ("features", JArr [feature "b" "c2"; feature "a" "c1"; feature "c" "c1"])].

(** an envelope whose second step filters the features *)
Definition raw_chain : dict json :=
  [("id", JStr "c2/workflow-publish/b");
   ("process", JArr [step "publish" [];
                     step "mosaic" [("chain_filter", JStr "@.id =~ 'z.*'")]]);
   ("features", JArr [JObj [("id", JStr "b"); ("collection", JStr "c2");
                            ("links", JArr [])]])].

(** the instances [ProcessPayload(raw_single, set_id_if_missing=True)]
    and [ProcessPayload(raw_chain)] *)
Definition single : ProcessPayload.t :=
  ProcessPayload.mk
    [("process", JArr [step "publish" []]);
     ("features", JArr [JObj [("id", JStr "b"); ("collection", JStr "c2");
                              ("links", JArr [])];
                        JObj [("id", JStr "a"); ("collection", JStr "c1");
                              ("links", JArr [])];
                        JObj [("id", JStr "c"); ("collection", JStr "c1");
                              ("links", JArr [])]]);
     ("id", JStr "c1/c2/workflow-publish/a/b/c")]
    (step "publish" [])
    (JArr [JObj [("id", JStr "b"); ("collection", JStr "c2");
                 ("links", JArr [])];
           JObj [("id", JStr "a"); ("collection", JStr "c1");
                 ("links", JArr [])];
           JObj [("id", JStr "c"); ("collection", JStr "c1");
                 ("links", JArr [])]])
    (JObj []) None.

Definition chain : ProcessPayload.t :=
  ProcessPayload.mk raw_chain (step "publish" [])
    (JArr [JObj [("id", JStr "b"); ("collection", JStr "c2");
                 ("links", JArr [])]])
    (JObj []) None.

(** [raw_single] as [__init__] holds it when it calls [set_id], and the
    same envelope with its first two features exchanged *)
Definition unidentified : ProcessPayload.t :=
  ProcessPayload.mk raw_single (step "publish" [])
    (JArr [feature "b" "c2"; feature "a" "c1"; feature "c" "c1"]) JNull None.

Definition reordered : ProcessPayload.t :=
  ProcessPayload.mk
    [("process", JArr [step "publish" []]);
     ("features", JArr [feature "a" "c1"; feature "b" "c2"; feature "c" "c1"])]
    (step "publish" [])
    (JArr [feature "a" "c1"; feature "b" "c2"; feature "c" "c1"]) JNull None.

(** a text of 250000 characters *)
Definition filler : string :=
  Pos.iter (String "a"%char) EmptyString 250000%positive.

(** an envelope too large to be passed inline, which carries a [url]
    entry of its own *)
Definition raw_oversized : dict json :=
  [("url", JStr "s3://elsewhere/original.json");
   ("id", JStr "c2/workflow-publish/b");
   ("process", JArr [step "publish" []]);
   ("features", JArr []);
   ("notes", JStr filler)].

Definition oversized : ProcessPayload.t :=
  ProcessPayload.mk raw_oversized (step "publish" []) (JArr []) (JObj []) None.

(** the same envelope without the [url] entry *)
Definition oversized_plain : ProcessPayload.t :=
  ProcessPayload.mk
    [("id", JStr "c2/workflow-publish/b");
     ("process", JArr [step "publish" []]);
     ("features", JArr []);
     ("notes", JStr filler)]
    (step "publish" []) (JArr []) (JObj []) None.

(** a deployment where everything answers *)
Definition healthy : World := world (Some "payloads") (Ok "exec-1") None [].

(** deployments where the claim is lost, where the engine throttles
    the start request, and where the state machine is missing *)
Definition contended : World :=
  world (Some "payloads")
    (Raise (ClientError "ConditionalCheckFailedException"
              "The conditional request failed"))
    None [].

Definition throttled : World :=
  world (Some "payloads") (Ok "exec-1")
    (Some (ClientError "ThrottlingException" "Rate exceeded")) [].

Definition undeployed : World :=
  world (Some "payloads") (Ok "exec-1")
    (Some (ClientError "StateMachineDoesNotExist"
             "State Machine Does Not Exist")) [].

(** a batch of two envelopes, states not supplied *)
Definition batch : ProcessPayloads.t := ProcessPayloads.mk [single; chain] None.

(** topic messages with one, ten and eleven attributes *)
Definition attribute (i : Z) : string * json :=
  ("status" +:+ Py.str_of_Z i,
   JObj [("DataType", JStr "String"); ("StringValue", JStr "succeeded")]).

Definition message (body : string) (n : nat) : Publisher.SNSMessage :=
  Publisher.mk_message body (Some (map attribute (map Z.of_nat (seq 0%nat n)))).

(** the same deployment without a payload bucket *)
Definition bucketless : World := world None (Ok "exec-1") None [].

End Reference.

(** ** Measures on the result of a batch *)

Module Tally.

(** how many identities the four lists hold *)
Definition total (r : ProcessPayloads.ids) : nat :=
  (length (ProcessPayloads.started r) + length (ProcessPayloads.skipped r)
   + length (ProcessPayloads.dropped r) + length (ProcessPayloads.failed r))%nat.

(** how many members of [l] are equal to [i], with Python's [==] *)
Definition occurrences (i : json) (l : list json) : nat :=
  length (List.filter (Py.eq_atom i) l).

(** how often [i] was given an outcome of its own: started, skipped or
    failed *)
Definition outcomes (r : ProcessPayloads.ids) (i : json) : nat :=
  (occurrences i (ProcessPayloads.started r)
   + occurrences i (ProcessPayloads.skipped r)
   + occurrences i (ProcessPayloads.failed r))%nat.

End Tally.

(** ** More envelopes and batches to run the model on *)

Module Samples.

(** an envelope whose second step is a sequence of two steps *)
Definition fanout : ProcessPayload.t :=
  ProcessPayload.mk
    [("id", JStr "c2/workflow-publish/b");
     ("process", JArr [Reference.step "publish" [];
                       JArr [Reference.step "mosaic" [];
                             Reference.step "tiles" []]]);
     ("features", JArr [JObj [("id", JStr "b"); ("collection", JStr "c2");
                              ("links", JArr [])]])]
    (Reference.step "publish" [])
    (JArr [JObj [("id", JStr "b"); ("collection", JStr "c2");
                 ("links", JArr [])]])
    (JObj []) None.

(** the step that [Reference.chain] enters next *)
Definition mosaic : json :=
  Reference.step "mosaic" [("chain_filter", JStr "@.id =~ 'z.*'")].

(** a batch with the same envelope twice, states not supplied *)
Definition twice : ProcessPayloads.t :=
  ProcessPayloads.mk [Reference.single; Reference.single] None.

(** state items that name the same payload twice *)
Definition history : list (string * StateEnum) :=
  [("c1/c2/workflow-publish/a/b/c", FAILED);
   ("c1/c2/workflow-publish/a/b/c", COMPLETED)].

(** a batch of one envelope whose states are supplied *)
Definition known : ProcessPayloads.t :=
  ProcessPayloads.mk [Reference.single]
    (Some [("c1/c2/workflow-publish/a/b/c", COMPLETED)]).

End Samples.

(** * Properties *)

(** ** Dictionaries *)

Section DictFacts.

Context {V : Type}.
Implicit Types (d : dict V) (k : string) (v : V).

Lemma dict_get_set_eq k v d : dict_get k (dict_set k v d) = Some v.
Proof.
  induction d as [|[k' v'] d IH]; simpl.
  - now rewrite String.eqb_refl.
  - destruct (String.eqb k k') eqn:E; simpl.
    + now rewrite String.eqb_refl.
    + now rewrite E.
Qed.

Lemma dict_get_set_ne k k' v d :
  k <> k' -> dict_get k' (dict_set k v d) = dict_get k' d.
Proof.
  intros Hne. induction d as [|[k0 v0] d IH]; simpl.
  - destruct (String.eqb k' k) eqn:E; [|reflexivity].
    apply String.eqb_eq in E. congruence.
  - destruct (String.eqb k k0) eqn:E; simpl.
    + apply String.eqb_eq in E. subst k0.
      destruct (String.eqb k' k) eqn:E'; [|reflexivity].
      apply String.eqb_eq in E'. congruence.
    + now rewrite IH.
Qed.

Lemma dict_get_del_ne k k' d :
  k <> k' -> dict_get k' (dict_del k d) = dict_get k' d.
Proof.
  intros Hne. induction d as [|[k0 v0] d IH]; simpl; [reflexivity|].
  destruct (String.eqb k k0) eqn:E; simpl.
  - apply String.eqb_eq in E. subst k0.
    destruct (String.eqb k' k) eqn:E'; [|reflexivity].
    apply String.eqb_eq in E'. congruence.
  - now rewrite IH.
Qed.

Lemma dict_mem_get k d : dict_mem k d = true <-> exists v, dict_get k d = Some v.
Proof.
  unfold dict_mem. destruct (dict_get k d); split; eauto; try discriminate.
  intros [? ?]; discriminate.
Qed.

Lemma dict_mem_false k d : dict_mem k d = false <-> dict_get k d = None.
Proof. unfold dict_mem. destruct (dict_get k d); split; congruence. Qed.

End DictFacts.

(** ** Generators *)

Lemma gen_for_app {A B} (f : A -> result B) pre x post ys y :
  rmap f pre = Ok ys -> f x = Ok y ->
  exists zs e, gen_for f (pre ++ x :: post) = (ys ++ y :: zs, e).
Proof.
  revert ys. induction pre as [|a pre IH]; simpl; intros ys Hpre Hx.
  - injection Hpre as <-. rewrite Hx. destruct (gen_for f post) as [zs e]. eauto.
  - destruct (f a) as [b|]; simpl in Hpre; [|discriminate].
    destruct (rmap f pre) as [bs|]; simpl in Hpre; [|discriminate].
    injection Hpre as <-.
    destruct (IH bs eq_refl Hx) as (zs & e & ->). simpl. eauto.
Qed.

(** ** Chaining *)

Section Chaining.
Import ProcessPayload.

Variable w : World.

Lemma successor_filter_matches_none self first step rest id filter :
  dict_get "id" (items self) = Some id ->
  dict_get "process" (items self) = Some (JArr (first :: rest)) ->
  rest <> [] ->
  dict_get "chain_filter" step = Some filter ->
  jsonpath_find w ("$.features[?(" +:+ format w filter +:+ ")]")
    (dict_get "features" (items self)) = Ok [] ->
  exists new, successor w self (JObj step) = Ok new
              /\ dict_get "features" (items new) = Some (JArr []).
Proof.
  intros Hid Hproc Hrest Hcf Hfind. unfold successor.
  assert (Hmem : dict_mem "id" (items self) = true) by (apply dict_mem_get; eauto).
  rewrite Hmem. simpl negb. cbv iota.
  rewrite dict_get_del_ne by discriminate. rewrite Hproc.
  destruct rest as [|second rest]; [congruence|].
  simpl. unfold dict_mem. rewrite Hcf. simpl.
  rewrite dict_get_set_ne by discriminate.
  rewrite dict_get_del_ne by discriminate.
  rewrite Hfind. simpl. eexists. split; [reflexivity|].
  simpl. apply dict_get_set_eq.
Qed.

End Chaining.

Example single_constructed :
  ProcessPayload.init Reference.healthy Reference.raw_single true None
  = Ok Reference.single.
Proof. vm_compute. reflexivity. Qed.

Example chain_constructed :
  ProcessPayload.init Reference.healthy Reference.raw_chain false None
  = Ok Reference.chain.
Proof. vm_compute. reflexivity. Qed.

Section ChainingClaims.
Import ProcessPayload.

(** C3. An envelope whose [process] sequence has exactly one step has no
    successor: [next_payloads] yields nothing and ends without an
    exception. *)
Theorem next_payloads_single_step (w : World) (self : t) (step : json) :
  dict_get "process" (items self) = Some (JArr [step]) ->
  next_payloads w self = ([], None).
Proof. intros H. unfold next_payloads. now rewrite H. Qed.

(** C7. When the step being entered declares a [chain_filter] that
    selects none of the parent's features, the successor is yielded
    with [features] bound to the empty list and no exception is raised;
    this holds for a second step that is a single mapping and for an
    entry of a second step that is a sequence, once the entries before
    it have yielded. *)
Theorem next_payloads_filter_matches_none (w : World) (self : t)
    (first second : json) (rest : list json) (id filter : json)
    (step : dict json) :
  dict_get "id" (items self) = Some id ->
  dict_get "process" (items self) = Some (JArr (first :: second :: rest)) ->
  dict_get "chain_filter" step = Some filter ->
  jsonpath_find w ("$.features[?(" +:+ format w filter +:+ ")]")
    (dict_get "features" (items self)) = Ok [] ->
  (second = JObj step ->
   exists new, next_payloads w self = ([new], None)
               /\ dict_get "features" (items new) = Some (JArr []))
  /\ (forall pre post earlier,
        second = JArr (pre ++ JObj step :: post) ->
        rmap (successor w self) pre = Ok earlier ->
        exists new later e,
          next_payloads w self = (earlier ++ new :: later, e)
          /\ dict_get "features" (items new) = Some (JArr [])).
Proof.
  intros Hid Hproc Hcf Hfind.
  destruct (successor_filter_matches_none w self first step (second :: rest)
              id filter Hid Hproc ltac:(discriminate) Hcf Hfind)
    as (new & Hnew & Hfeat).
  split.
  - intros ->. exists new. unfold next_payloads. rewrite Hproc.
    simpl. rewrite Hnew. auto.
  - intros pre post earlier -> Hpre.
    destruct (gen_for_app (successor w self) pre (JObj step) post earlier new
                Hpre Hnew) as (later & e & Hgen).
    exists new, later, e. unfold next_payloads. rewrite Hproc.
    simpl. rewrite Hgen. auto.
Qed.

End ChainingClaims.

Lemma next_payloads_single_step_witness :
  ProcessPayload.next_payloads Reference.healthy Reference.single = ([], None).
Proof.
  apply (next_payloads_single_step Reference.healthy Reference.single
           (Reference.step "publish" [])).
  reflexivity.
Defined.

Lemma next_payloads_filter_matches_none_witness :
  exists new,
    ProcessPayload.next_payloads Reference.healthy Reference.chain = ([new], None)
    /\ dict_get "features" (ProcessPayload.items new) = Some (JArr []).
Proof.
  apply (proj1 (next_payloads_filter_matches_none Reference.healthy Reference.chain
                  (Reference.step "publish" [])
                  (Reference.step "mosaic" [("chain_filter", JStr "@.id =~ 'z.*'")])
                  [] (JStr "c2/workflow-publish/b") (JStr "@.id =~ 'z.*'")
                  [("workflow", JStr "mosaic"); ("upload_options", JObj []);
                   ("tasks", JObj []); ("chain_filter", JStr "@.id =~ 'z.*'")]
                  eq_refl eq_refl eq_refl eq_refl)).
  reflexivity.
Defined.

(** ** Construction *)

Lemma rbind_ok {A B} (r : result A) (k : A -> result B) b :
  rbind r k = Ok b -> exists a, r = Ok a /\ k a = Ok b.
Proof. destruct r; simpl; [eauto|discriminate]. Qed.

Ltac rinv H :=
  let a := fresh "a" in
  let Ha := fresh "Ha" in
  apply rbind_ok in H; destruct H as (a & Ha & H).

Section Construction.
Import ProcessPayload.

Variable w : World.

Lemma set_id_items self self' :
  set_id w self = Ok self' ->
  dict_get "id" (items self) = None ->
  exists s, items self' = dict_set "id" (JStr s) (items self).
Proof.
  unfold set_id. intros H Hnone.
  apply dict_mem_false in Hnone. rewrite Hnone in H.
  destruct (negb (Py.truthy (features self))); [discriminate|].
  rinv H. injection H as <-. simpl. eauto.
Qed.

Lemma init_ok_inv raw flag st self :
  init w raw flag st = Ok self ->
  exists self1 i,
    (if negb (dict_mem "id" raw) && flag
     then exists self0, items self0 = raw /\ set_id w self0 = Ok self1
     else items self1 = raw)
    /\ dict_get "id" (items self1) = Some i
    /\ Py.contains "workflow-" i = Ok true
    /\ dict_get "id" (items self) = Some i.
Proof.
  unfold init. intros H.
  destruct (dict_get "process" raw) as [[| | | |[|step ps]|]|];
    try discriminate.
  rinv H. repeat (rinv H; clear Ha0).
  destruct (dict_get "id" (items a)) as [i|] eqn:Hi; [|discriminate].
  rinv H. destruct a4; simpl in H; [|discriminate].
  rinv H. injection H as <-. simpl.
  exists a, i. repeat split; auto.
  - destruct (negb (dict_mem "id" raw) && flag).
    + eexists; split; [|exact Ha]. reflexivity.
    + injection Ha as <-. reflexivity.
  - destruct (dict_mem "features" raw); auto.
    rewrite dict_get_set_ne by discriminate. exact Hi.
Qed.

End Construction.

(** C9. After a successful construction the envelope always has an [id],
    and ["workflow-" in self["id"]] holds: an identity derived by the
    constructor or supplied as a string is a string with the substring
    [workflow-].  A raw mapping without [id] is refused when
    [set_id_if_missing] is not set, so the invariant is unconditional. *)
Theorem init_id_invariant (w : World) (raw : dict json) (flag : bool)
    (st : option json) :
  (forall self,
     ProcessPayload.init w raw flag st = Ok self ->
     exists i,
       dict_get "id" (ProcessPayload.items self) = Some i
       /\ Py.contains "workflow-" i = Ok true
       /\ (dict_get "id" raw = None
           \/ (exists s, dict_get "id" raw = Some (JStr s)) ->
           exists s, i = JStr s /\ Py.str_contains "workflow-" s = true))
  /\ (dict_get "id" raw = None -> flag = false ->
      exists e, ProcessPayload.init w raw flag st = Raise e).
Proof.
  split.
  - intros self H.
    destruct (init_ok_inv w raw flag st self H) as (self1 & i & Hsrc & Hi & Hc & Hid).
    exists i. repeat split; auto.
    intros Hraw.
    assert (Hs : exists s, i = JStr s).
    { destruct (negb (dict_mem "id" raw) && flag) eqn:Hcond.
      - destruct Hsrc as (self0 & Hraw0 & Hset).
        apply andb_prop in Hcond. destruct Hcond as [Hmem _].
        apply negb_true_iff, dict_mem_false in Hmem.
        rewrite <- Hraw0 in Hmem.
        destruct (set_id_items w self0 self1 Hset Hmem) as (s & Hs).
        rewrite Hs, dict_get_set_eq in Hi. injection Hi as <-. eauto.
      - rewrite Hsrc in Hi. destruct Hraw as [Hnone|[s Hs]].
        + congruence.
        + rewrite Hs in Hi. injection Hi as <-. eauto. }
    destruct Hs as [s ->]. exists s. split; [reflexivity|].
    simpl in Hc. now injection Hc.
  - intros Hnone ->.
    destruct (ProcessPayload.init w raw false st) as [self|e] eqn:H; [|eauto].
    destruct (init_ok_inv w raw false st self H) as (self1 & i & Hsrc & Hi & _).
    rewrite andb_false_r in Hsrc. rewrite Hsrc in Hi. congruence.
Qed.

Lemma init_id_invariant_witness :
  (exists i,
     dict_get "id" (ProcessPayload.items Reference.single) = Some i
     /\ Py.contains "workflow-" i = Ok true
     /\ (dict_get "id" Reference.raw_single = None
         \/ (exists s, dict_get "id" Reference.raw_single = Some (JStr s)) ->
         exists s, i = JStr s /\ Py.str_contains "workflow-" s = true))
  /\ exists e,
       ProcessPayload.init Reference.healthy Reference.raw_single false None
       = Raise e.
Proof.
  split.
  - apply (proj1 (init_id_invariant Reference.healthy Reference.raw_single true None)).
    vm_compute. reflexivity.
  - apply (proj2 (init_id_invariant Reference.healthy Reference.raw_single false None));
      reflexivity.
Defined.

(** ** Identity *)

Section StrOrder.

Lemma str_leb_refl a : Py.str_leb a a = true.
Proof.
  induction a as [|x a IH]; simpl; [reflexivity|].
  rewrite Nat.ltb_irrefl, Ascii.eqb_refl. exact IH.
Qed.

Lemma nat_of_ascii_inj x y : nat_of_ascii x = nat_of_ascii y -> x = y.
Proof.
  intros H. rewrite <- (ascii_nat_embedding x), <- (ascii_nat_embedding y).
  now rewrite H.
Qed.

#[local] Instance str_le_trans : Transitive Py.str_le.
Proof.
  unfold Py.str_le. intros a. induction a as [|x a IH]; intros b c Hab Hbc.
  - reflexivity.
  - destruct b as [|y b]; [discriminate|].
    destruct c as [|z c]; [discriminate|].
    simpl in *.
    destruct (nat_of_ascii x <? nat_of_ascii y)%nat eqn:Exy.
    + apply Nat.ltb_lt in Exy.
      destruct (nat_of_ascii y <? nat_of_ascii z)%nat eqn:Eyz.
      * apply Nat.ltb_lt in Eyz.
        assert (E : (nat_of_ascii x <? nat_of_ascii z)%nat = true)
          by (apply Nat.ltb_lt; lia).
        now rewrite E.
      * destruct (Ascii.eqb y z) eqn:E; [|discriminate].
        apply Ascii.eqb_eq in E. subst z.
        assert (E : (nat_of_ascii x <? nat_of_ascii y)%nat = true)
          by (apply Nat.ltb_lt; lia).
        now rewrite E.
    + destruct (Ascii.eqb x y) eqn:E; [|discriminate].
      apply Ascii.eqb_eq in E. subst y.
      destruct (nat_of_ascii x <? nat_of_ascii z)%nat; [reflexivity|].
      destruct (Ascii.eqb x z); [|discriminate]. eauto.
Qed.

#[local] Instance str_le_antisym : AntiSymm eq Py.str_le.
Proof.
  unfold Py.str_le. intros a. induction a as [|x a IH]; intros b Hab Hba.
  - destruct b; [reflexivity|discriminate].
  - destruct b as [|y b]; [discriminate|]. simpl in *.
    destruct (nat_of_ascii x <? nat_of_ascii y)%nat eqn:Exy.
    + apply Nat.ltb_lt in Exy.
      destruct (nat_of_ascii y <? nat_of_ascii x)%nat eqn:Eyx.
      * apply Nat.ltb_lt in Eyx. lia.
      * destruct (Ascii.eqb y x) eqn:E; [|discriminate].
        apply Ascii.eqb_eq in E. subst. lia.
    + destruct (Ascii.eqb x y) eqn:E; [|discriminate].
      apply Ascii.eqb_eq in E. subst y.
      rewrite Nat.ltb_irrefl, Ascii.eqb_refl in Hba.
      f_equal. eauto.
Qed.

#[local] Instance str_le_total : Total Py.str_le.
Proof.
  unfold Py.str_le. intros a. induction a as [|x a IH]; intros b.
  - left. reflexivity.
  - destruct b as [|y b]; [right; reflexivity|]. simpl.
    destruct (nat_of_ascii x <? nat_of_ascii y)%nat eqn:Exy; [auto|].
    destruct (nat_of_ascii y <? nat_of_ascii x)%nat eqn:Eyx; [auto|].
    apply Nat.ltb_ge in Exy, Eyx.
    assert (x = y) by (apply nat_of_ascii_inj; lia). subst y.
    rewrite Ascii.eqb_refl. apply IH.
Qed.

Lemma sorted_perm l l' : l ≡ₚ l' -> Py.sorted l = Py.sorted l'.
Proof.
  intros H. unfold Py.sorted.
  apply (Sorted_unique Py.str_le); try apply Sorted_merge_sort; try apply _.
  now rewrite !merge_sort_Permutation.
Qed.

Lemma sorted_set_perm l l' : l ≡ₚ l' -> Py.sorted_set l = Py.sorted_set l'.
Proof.
  intros H. unfold Py.sorted_set. apply sorted_perm.
  apply NoDup_Permutation; try apply NoDup_remove_dups.
  intros x. rewrite !elem_of_remove_dups. now rewrite H.
Qed.

End StrOrder.

Lemma rmap_perm {A B} (f : A -> result B) l l' ys :
  l ≡ₚ l' -> rmap f l = Ok ys ->
  exists ys', rmap f l' = Ok ys' /\ ys ≡ₚ ys'.
Proof.
  intros HP. revert ys.
  induction HP as [|x l l' HP IH|x y l|l l' l'' HP1 IH1 HP2 IH2]; intros ys H.
  - exists ys. split; [exact H|reflexivity].
  - simpl in H. rinv H. rinv H. injection H as <-.
    destruct (IH _ Ha0) as (ys' & Hys' & HPy).
    exists (a :: ys'). simpl. rewrite Ha, Hys'. simpl. split; [reflexivity|].
    now constructor.
  - simpl in H. rinv H. rinv H. injection H as <-.
    rinv Ha0. rinv Ha0. injection Ha0 as <-.
    exists (a1 :: a :: a2). simpl. rewrite Ha1, Ha, Ha2. simpl.
    split; [reflexivity|]. apply perm_swap.
  - destruct (IH1 _ H) as (ys' & Hys' & HPy).
    destruct (IH2 _ Hys') as (ys'' & Hys'' & HPy').
    exists ys''. split; [exact Hys''|]. now transitivity ys'.
Qed.

Section Identity.
Import ProcessPayload.

Variable w : World.

Lemma all_str_perm vs vs' strs :
  vs ≡ₚ vs' -> all_str vs = Ok strs ->
  exists strs', all_str vs' = Ok strs' /\ strs ≡ₚ strs'.
Proof. apply rmap_perm. Qed.

Lemma collections_perm fs fs' cols :
  fs ≡ₚ fs' -> collections (JArr fs) = Ok cols ->
  collections (JArr fs') = Ok cols.
Proof.
  unfold collections. simpl. intros HP H.
  rinv H. rinv H. injection H as <-.
  destruct (rmap_perm _ _ _ _ HP Ha) as (vs' & Hvs' & HPv).
  assert (HPo : omap id a ≡ₚ omap id vs') by now rewrite HPv.
  destruct (all_str_perm _ _ _ HPo Ha0) as (strs' & Hstrs' & HPs).
  rewrite Hvs'. simpl. rewrite Hstrs'. simpl.
  f_equal. symmetry. now apply sorted_set_perm.
Qed.

Lemma items_str_perm fs fs' s :
  fs ≡ₚ fs' -> items_str (JArr fs) = Ok s -> items_str (JArr fs') = Ok s.
Proof.
  unfold items_str. simpl. intros HP H.
  rinv H. rinv H. injection H as <-.
  destruct (rmap_perm _ _ _ _ HP Ha) as (vs' & Hvs' & HPv).
  destruct (all_str_perm _ _ _ HPv Ha0) as (strs' & Hstrs' & HPs).
  rewrite Hvs'. simpl. rewrite Hstrs'. simpl.
  f_equal. f_equal. symmetry. now apply sorted_perm.
Qed.

Lemma derive_id_perm step fs fs' s :
  fs ≡ₚ fs' -> derive_id w step (JArr fs) = Ok s ->
  derive_id w step (JArr fs') = Ok s.
Proof.
  unfold derive_id. intros HP H.
  rinv H. rewrite Ha. simpl.
  rinv H. rinv H.
  rewrite (items_str_perm _ _ _ HP Ha1).
  destruct a.
  - rewrite Ha0. simpl. exact H.
  - rinv Ha0. injection Ha0 as <-.
    rewrite (collections_perm _ _ _ HP Ha2). simpl. exact H.
Qed.

Lemma truthy_perm fs fs' :
  fs ≡ₚ fs' -> Py.truthy (JArr fs) = Py.truthy (JArr fs').
Proof.
  intros HP. simpl. destruct fs, fs'; try reflexivity.
  - now apply Permutation_nil_cons in HP.
  - symmetry in HP. now apply Permutation_nil_cons in HP.
Qed.

End Identity.

Section IdentityClaim.
Import ProcessPayload.

(** C5. Identity derivation is pure, idempotent and order-insensitive:
    two envelopes without [id] that agree on the active step and on the
    features get the same identity (or the same exception); [set_id] on
    an envelope that has an [id] changes nothing, in particular a
    second [set_id] after a first; and envelopes that agree up to the
    order of their features get the same identity. *)
Theorem set_id_pure_idempotent_order_insensitive (w : World) :
  (forall self1 self2,
     process self1 = process self2 ->
     features self1 = features self2 ->
     dict_get "id" (items self1) = None ->
     dict_get "id" (items self2) = None ->
     identity w self1 = identity w self2)
  /\ (forall self i,
        dict_get "id" (items self) = Some i -> set_id w self = Ok self)
  /\ (forall self self',
        set_id w self = Ok self' ->
        set_id w self' = Ok self' /\ identity w self' = identity w self)
  /\ (forall self1 self2 fs1 fs2 i,
        process self1 = process self2 ->
        features self1 = JArr fs1 ->
        features self2 = JArr fs2 ->
        Permutation fs1 fs2 ->
        dict_get "id" (items self1) = dict_get "id" (items self2) ->
        identity w self1 = Ok i ->
        identity w self2 = Ok i).
Proof.
  assert (Hnoop : forall self i,
             dict_get "id" (items self) = Some i -> set_id w self = Ok self).
  { intros self i Hi. unfold set_id.
    assert (Hm : dict_mem "id" (items self) = true) by (apply dict_mem_get; eauto).
    now rewrite Hm. }
  assert (Hfresh : forall self,
             dict_get "id" (items self) = None ->
             identity w self
             = if negb (Py.truthy (features self)) then
                 Raise (ValueError "ProcessPayload has no `id` specified and one cannot be constructed without `features`.")
               else i <~ derive_id w (process self) (features self) ;; Ok (JStr i)).
  { intros self Hn. unfold identity, set_id.
    apply dict_mem_false in Hn. rewrite Hn.
    destruct (negb (Py.truthy (features self))); [reflexivity|].
    destruct (derive_id w (process self) (features self)); simpl; [|reflexivity].
    now rewrite dict_get_set_eq. }
  repeat split.
  - intros self1 self2 Hp Hf H1 H2.
    rewrite (Hfresh _ H1), (Hfresh _ H2), Hp, Hf. reflexivity.
  - exact Hnoop.
  - destruct (dict_get "id" (items self)) as [i|] eqn:Hi.
    + rewrite (Hnoop _ _ Hi) in H. injection H as <-. eauto.
    + destruct (set_id_items w self self' H Hi) as (s & Hs).
      apply (Hnoop self' (JStr s)). rewrite Hs. apply dict_get_set_eq.
  - unfold identity at 2. rewrite H. simpl.
    unfold identity.
    destruct (dict_get "id" (items self)) as [i|] eqn:Hi.
    + rewrite (Hnoop _ _ Hi) in H. injection H as <-.
      rewrite (Hnoop _ _ Hi). reflexivity.
    + destruct (set_id_items w self self' H Hi) as (s & Hs).
      rewrite (Hnoop self' (JStr s)); [reflexivity|].
      rewrite Hs. apply dict_get_set_eq.
  - intros self1 self2 fs1 fs2 i Hp Hf1 Hf2 HP Hid H.
    destruct (dict_get "id" (items self1)) as [j|] eqn:Hj.
    + unfold identity in *. rewrite (Hnoop _ _ Hj) in H. simpl in H.
      rewrite Hj in H. symmetry in Hid.
      rewrite (Hnoop _ _ Hid). simpl. now rewrite Hid.
    + symmetry in Hid. rewrite (Hfresh _ Hj) in H. rewrite (Hfresh _ Hid).
      rewrite Hf1 in H. rewrite Hf2, <- Hp, <- (truthy_perm fs1 fs2 HP).
      destruct (negb (Py.truthy (JArr fs1))); [discriminate|].
      rinv H. now rewrite (derive_id_perm w _ _ _ _ HP Ha).
Qed.

End IdentityClaim.

Lemma set_id_pure_idempotent_order_insensitive_witness :
  ProcessPayload.identity Reference.healthy Reference.unidentified
  = Ok (JStr "c1/c2/workflow-publish/a/b/c")
  /\ ProcessPayload.identity Reference.healthy Reference.reordered
     = Ok (JStr "c1/c2/workflow-publish/a/b/c")
  /\ ProcessPayload.set_id Reference.healthy Reference.single = Ok Reference.single.
Proof.
  pose proof (set_id_pure_idempotent_order_insensitive Reference.healthy)
    as (_ & Hnoop & _ & Hperm).
  assert (H : ProcessPayload.identity Reference.healthy Reference.unidentified
              = Ok (JStr "c1/c2/workflow-publish/a/b/c"))
    by (vm_compute; reflexivity).
  split; [exact H|]. split.
  - apply (Hperm Reference.unidentified Reference.reordered
             [Reference.feature "b" "c2"; Reference.feature "a" "c1";
              Reference.feature "c" "c1"]
             [Reference.feature "a" "c1"; Reference.feature "b" "c2";
              Reference.feature "c" "c1"]);
      try reflexivity; apply perm_swap.
  - apply (Hnoop Reference.single (JStr "c1/c2/workflow-publish/a/b/c")).
    reflexivity.
Defined.

(** ** Encoding for transport *)

Example oversized_constructed :
  ProcessPayload.init Reference.healthy Reference.raw_oversized false None
  = Ok Reference.oversized.
Proof. reflexivity. Qed.

Example oversized_length :
  Launch.payload_length Reference.healthy Reference.oversized = 250172.
Proof. vm_compute. reflexivity. Qed.

Section Transport.
Import ProcessPayload Launch.

(** C4, as the code has it.  [get_payload] returns the envelope itself
    when its encoding has at most 250000 bytes.  Above that, without a
    bucket it raises an error whose message gives the length and the
    maximum; with a bucket it returns a mapping with the single key
    [url]: the envelope's own [url] entry, without any upload, when
    the envelope has one, and otherwise the location
    [s3://<bucket>/payloads/<uuid>.json] to which it has just uploaded
    the envelope (an exception of the upload goes through). *)
Theorem get_payload_cases (w : World) (self : t) (tr : trace) :
  (payload_length w self <= MAX_PAYLOAD_LENGTH ->
   get_payload w self tr = (tr, Ok (items self)))
  /\ (MAX_PAYLOAD_LENGTH < payload_length w self ->
      getenv_nonempty w "CIRRUS_PAYLOAD_BUCKET" = None ->
      get_payload w self tr
      = (tr, Raise (RuntimeError
               ("No payload bucket defined and payload too large: length "
                +:+ Py.str_of_Z (payload_length w self)
                +:+ " (max 250000). To enable uploads oversized payloads define `CIRRUS_PAYLOAD_BUCKET`."))))
  /\ (forall bucket,
        MAX_PAYLOAD_LENGTH < payload_length w self ->
        getenv_nonempty w "CIRRUS_PAYLOAD_BUCKET" = Some bucket ->
        (forall u,
           dict_get "url" (items self) = Some u ->
           get_payload w self tr = (tr, Ok [("url", u)]))
        /\ (dict_get "url" (items self) = None ->
            get_payload w self tr
            = (tr ++ [S3UploadJson (JObj (items self))
                        ("s3://" +:+ bucket +:+ "/payloads/" +:+ uuid1 w tr +:+ ".json")],
               match s3_upload_json w tr (JObj (items self))
                       ("s3://" +:+ bucket +:+ "/payloads/" +:+ uuid1 w tr +:+ ".json") with
               | None => Ok [("url", JStr ("s3://" +:+ bucket +:+ "/payloads/"
                                           +:+ uuid1 w tr +:+ ".json"))]
               | Some e => Raise e
               end))).
Proof.
  unfold get_payload. repeat split.
  - intros H. apply Z.leb_le in H. now rewrite H.
  - intros H Henv. apply Z.leb_gt in H. rewrite H, Henv. reflexivity.
  - intros u Hu. apply Z.leb_gt in H. rewrite H, H0.
    unfold upload_to_s3, bind. rewrite Hu. reflexivity.
  - intros Hu. apply Z.leb_gt in H. rewrite H, H0.
    unfold upload_to_s3, bind, call_unit. rewrite Hu.
    destruct (s3_upload_json w tr _ _); reflexivity.
Qed.

End Transport.

Lemma get_payload_cases_witness :
  Launch.get_payload Reference.healthy Reference.single []
  = ([], Ok (ProcessPayload.items Reference.single))
  /\ Launch.get_payload Reference.bucketless Reference.oversized []
     = ([], Raise (RuntimeError "No payload bucket defined and payload too large: length 250172 (max 250000). To enable uploads oversized payloads define `CIRRUS_PAYLOAD_BUCKET`."))
  /\ Launch.get_payload Reference.healthy Reference.oversized_plain []
     = ([S3UploadJson (JObj (ProcessPayload.items Reference.oversized_plain))
           "s3://payloads/payloads/0.json"],
        Ok [("url", JStr "s3://payloads/payloads/0.json")]).
Proof.
  split; [|split].
  - apply (proj1 (get_payload_cases Reference.healthy Reference.single [])).
    vm_compute. discriminate.
  - assert (Hlen : Launch.payload_length Reference.bucketless Reference.oversized
                   = 250172) by (vm_compute; reflexivity).
    pose proof (proj1 (proj2 (get_payload_cases Reference.bucketless
                                Reference.oversized []))) as H.
    rewrite Hlen in H. apply H; reflexivity.
  - apply (proj2 (proj2 (proj2 (get_payload_cases Reference.healthy
                                  Reference.oversized_plain []))
                    "payloads" ltac:(vm_compute; reflexivity) eq_refl)).
    reflexivity.
Defined.

(** C4, as stated, fails: an oversized envelope that has a [url] entry is
    not uploaded although a bucket is configured; the pointer returned is
    the envelope's own [url]. *)
Lemma get_payload_oversized_with_url_not_uploaded :
  MAX_PAYLOAD_LENGTH < Launch.payload_length Reference.healthy Reference.oversized
  /\ Launch.getenv_nonempty Reference.healthy "CIRRUS_PAYLOAD_BUCKET" = Some "payloads"
  /\ Launch.get_payload Reference.healthy Reference.oversized []
     = ([], Ok [("url", JStr "s3://elsewhere/original.json")])
  /\ ~ (exists body url,
          In (S3UploadJson body url)
             (fst (Launch.get_payload Reference.healthy Reference.oversized []))).
Proof.
  assert (H : Launch.get_payload Reference.healthy Reference.oversized []
              = ([], Ok [("url", JStr "s3://elsewhere/original.json")]))
    by (vm_compute; reflexivity).
  split; [vm_compute; reflexivity|].
  split; [reflexivity|].
  split; [exact H|].
  rewrite H. intros (body & url & []).
Qed.

(** ** Launch *)

Section LaunchFacts.
Import ProcessPayload Launch.

Variable w : World.

(** The handlers, case by case. *)
Lemma handle_started id url i tr :
  handle id url (Ok i) tr = (tr, Ok (Some i)).
Proof. reflexivity. Qed.

Lemma handle_claim_lost id url msg tr :
  handle id url (Raise (ClientError "ConditionalCheckFailedException" msg)) tr
  = (tr ++ [Skipping id (Some PROCESSING) url], Ok None).
Proof. reflexivity. Qed.

Lemma handle_state_machine_missing id url msg tr :
  handle id url (Raise (ClientError "StateMachineDoesNotExist" msg)) tr
  = (tr ++ [Failed id msg url], Raise TerminalError).
Proof. reflexivity. Qed.

Lemma handle_unclassified_client_error id url code msg tr :
  code <> "ConditionalCheckFailedException" ->
  code <> "StateMachineDoesNotExist" ->
  handle id url (Raise (ClientError code msg)) tr
  = (tr, Raise (ClientError code msg)).
Proof.
  intros H1 H2. unfold handle.
  apply String.eqb_neq in H1, H2. now rewrite H1, H2.
Qed.

Lemma handle_other_exception id url e tr :
  (forall code msg, e <> ClientError code msg) ->
  handle id url (Raise e) tr
  = (tr ++ [Failed id ("failed starting workflow (" +:+ exn_str e +:+ ")") url],
     Raise e).
Proof.
  intros H. destruct e; try reflexivity. now destruct (H code msg).
Qed.

(** A launch that returns an identity returns the envelope's own. *)
Lemma start_workflow_returns_id self id arn url tr tr' i :
  start_workflow w self id arn url tr = (tr', Ok i) -> i = id.
Proof.
  unfold start_workflow, bind, call_unit, call_val, ret. intros H.
  repeat match type of H with
         | context [match ?x with _ => _ end] => destruct x; try discriminate
         end.
  congruence.
Qed.

Lemma call_returns_id self tr tr' i :
  call w self tr = (tr', Ok (Some i)) -> dict_get "id" (items self) = Some i.
Proof.
  unfold call, bind, lift, throw. intros H.
  destruct (getenv_nonempty w "CIRRUS_PAYLOAD_BUCKET"); [|discriminate].
  destruct (workflow_arn w self); [|discriminate].
  destruct (dict_get "id" (items self)) as [id|]; [|discriminate].
  destruct (start_workflow w self id _ _ tr) as [tr1 [j|e]] eqn:Hs.
  - apply start_workflow_returns_id in Hs. subst j.
    simpl in H. unfold ret in H. congruence.
  - exfalso. unfold handle in H.
    destruct e; simpl in H; unfold bind, record, ret, throw in H;
      try discriminate.
    destruct (String.eqb code "ConditionalCheckFailedException"); [discriminate|].
    destruct (String.eqb code "StateMachineDoesNotExist"); discriminate.
Qed.

(** C6. When the conditional claim of the state store fails with
    [ConditionalCheckFailedException], the launch records a skipping
    event and returns [None]: after the upload of the input and the
    claim no further call is made (the engine is not asked to start
    anything) and no exception reaches the caller. *)
Theorem call_claim_lost (self : t) (tr : trace) (bucket arn msg : string)
    (id : json) :
  getenv_nonempty w "CIRRUS_PAYLOAD_BUCKET" = Some bucket ->
  workflow_arn w self = Ok arn ->
  dict_get "id" (items self) = Some id ->
  s3_upload_json w tr (JObj (items self)) (input_url w bucket id) = None ->
  claim_processing w
    (tr ++ [S3UploadJson (JObj (items self)) (input_url w bucket id)])
    id (input_url w bucket id) arn
  = Raise (ClientError "ConditionalCheckFailedException" msg) ->
  call w self tr
  = (tr ++ [S3UploadJson (JObj (items self)) (input_url w bucket id);
            ClaimProcessing id (input_url w bucket id) arn;
            Skipping id (Some PROCESSING) (input_url w bucket id)],
     Ok None).
Proof.
  intros Henv Harn Hid Hup Hclaim.
  unfold call, bind, lift. rewrite Henv, Harn, Hid.
  unfold start_workflow, bind, call_unit, call_val.
  rewrite Hup, Hclaim. rewrite handle_claim_lost.
  now rewrite <- !app_assoc.
Qed.

End LaunchFacts.

Lemma call_claim_lost_witness :
  Launch.call Reference.contended Reference.single []
  = ([S3UploadJson (JObj (ProcessPayload.items Reference.single))
        "s3://payloads/c1/c2/workflow-publish/a/b/c/input.json";
      ClaimProcessing (JStr "c1/c2/workflow-publish/a/b/c")
        "s3://payloads/c1/c2/workflow-publish/a/b/c/input.json"
        "arn:aws:states:us-west-2:123456789012:stateMachine:publish";
      Skipping (JStr "c1/c2/workflow-publish/a/b/c") (Some PROCESSING)
        "s3://payloads/c1/c2/workflow-publish/a/b/c/input.json"],
     Ok None).
Proof.
  apply (call_claim_lost Reference.contended Reference.single [] "payloads"
           "arn:aws:states:us-west-2:123456789012:stateMachine:publish"
           "The conditional request failed"
           (JStr "c1/c2/workflow-publish/a/b/c"));
    reflexivity.
Defined.

(** C1 fails on a client error whose code is neither
    [ConditionalCheckFailedException] nor [StateMachineDoesNotExist]: the
    engine throttles the start request, the launch re-raises the error,
    and nothing was recorded as failed. *)
Lemma call_throttled_not_recorded :
  Launch.call Reference.throttled Reference.single []
  = ([S3UploadJson (JObj (ProcessPayload.items Reference.single))
        "s3://payloads/c1/c2/workflow-publish/a/b/c/input.json";
      ClaimProcessing (JStr "c1/c2/workflow-publish/a/b/c")
        "s3://payloads/c1/c2/workflow-publish/a/b/c/input.json"
        "arn:aws:states:us-west-2:123456789012:stateMachine:publish";
      StartExecution "arn:aws:states:us-west-2:123456789012:stateMachine:publish"
        "exec-1"
        (Reference.dumps (JObj (ProcessPayload.items Reference.single)))],
     Raise (ClientError "ThrottlingException" "Rate exceeded"))
  /\ forall id msg url,
       ~ In (Failed id msg url)
            (fst (Launch.call Reference.throttled Reference.single [])).
Proof.
  assert (H : Launch.call Reference.throttled Reference.single []
    = ([S3UploadJson (JObj (ProcessPayload.items Reference.single))
          "s3://payloads/c1/c2/workflow-publish/a/b/c/input.json";
        ClaimProcessing (JStr "c1/c2/workflow-publish/a/b/c")
          "s3://payloads/c1/c2/workflow-publish/a/b/c/input.json"
          "arn:aws:states:us-west-2:123456789012:stateMachine:publish";
        StartExecution "arn:aws:states:us-west-2:123456789012:stateMachine:publish"
          "exec-1"
          (Reference.dumps (JObj (ProcessPayload.items Reference.single)))],
       Raise (ClientError "ThrottlingException" "Rate exceeded")))
    by (vm_compute; reflexivity).
  split; [exact H|].
  intros id msg url. rewrite H. simpl.
  intros [Hin|[Hin|[Hin|[]]]]; discriminate.
Qed.

(** The neighbouring paths do record: a missing state machine and an
    exception that is not a client error both leave a [Failed] event. *)
Example call_undeployed_recorded :
  Launch.call Reference.undeployed Reference.single []
  = ([S3UploadJson (JObj (ProcessPayload.items Reference.single))
        "s3://payloads/c1/c2/workflow-publish/a/b/c/input.json";
      ClaimProcessing (JStr "c1/c2/workflow-publish/a/b/c")
        "s3://payloads/c1/c2/workflow-publish/a/b/c/input.json"
        "arn:aws:states:us-west-2:123456789012:stateMachine:publish";
      StartExecution "arn:aws:states:us-west-2:123456789012:stateMachine:publish"
        "exec-1"
        (Reference.dumps (JObj (ProcessPayload.items Reference.single)));
      Failed (JStr "c1/c2/workflow-publish/a/b/c") "State Machine Does Not Exist"
        "s3://payloads/c1/c2/workflow-publish/a/b/c/input.json"],
     Raise TerminalError).
Proof. vm_compute. reflexivity. Qed.

(** ** Batches *)

Section BatchFacts.
Import ProcessPayloads.

Variable w : World.

Lemma eq_atom_refl id : Py.hashable id = true -> Py.eq_atom id id = true.
Proof.
  destruct id as [|b|n|s|xs|kvs]; simpl; try discriminate; intros _.
  - reflexivity.
  - now destruct b.
  - apply Z.eqb_refl.
  - apply String.eqb_refl.
Qed.

Lemma states_get_hashable states id st :
  states_get states id = Ok st -> Py.hashable id = true.
Proof. destruct id; simpl; congruence. Qed.

Lemma in_list_app a l l' :
  Py.in_list a (l ++ l') = Py.in_list a l || Py.in_list a l'.
Proof. apply existsb_app. Qed.

Lemma seen_add_started r i a :
  seen (add_started r a) i = seen r i || Py.eq_atom i a.
Proof.
  unfold seen, add_started. simpl. rewrite in_list_app. simpl.
  destruct (Py.in_list i (started r)), (Py.eq_atom i a),
    (Py.in_list i (skipped r)), (Py.in_list i (failed r)); reflexivity.
Qed.

Lemma seen_add_skipped r i a :
  seen (add_skipped r a) i = seen r i || Py.eq_atom i a.
Proof.
  unfold seen, add_skipped. simpl. rewrite in_list_app. simpl.
  destruct (Py.in_list i (started r)), (Py.eq_atom i a),
    (Py.in_list i (skipped r)), (Py.in_list i (failed r)); reflexivity.
Qed.

Lemma seen_add_failed r i a :
  seen (add_failed r a) i = seen r i || Py.eq_atom i a.
Proof.
  unfold seen, add_failed. simpl. rewrite in_list_app. simpl.
  destruct (Py.in_list i (started r)), (Py.eq_atom i a),
    (Py.in_list i (skipped r)), (Py.in_list i (failed r)); reflexivity.
Qed.

Lemma seen_add_dropped r i a : seen (add_dropped r a) i = seen r i.
Proof. reflexivity. Qed.

(** What a turn of the loop that returns has done to the lists. *)
Lemma attempt_ok r id payload tr tr' r' :
  attempt w r id payload tr = (tr', Ok r') ->
  dict_get "id" (ProcessPayload.items payload) = Some id ->
  r' = add_started r id \/ r' = add_skipped r id \/ r' = add_failed r id.
Proof.
  unfold attempt. intros H Hid.
  destruct (Launch.call w payload tr) as [tr1 [[i|]|e]] eqn:Hc.
  - apply call_returns_id in Hc. rewrite Hid in Hc.
    injection Hc as <-. injection H as _ <-. auto.
  - injection H as _ <-. auto.
  - destruct e; try discriminate. injection H as _ <-. auto.
Qed.

Lemma process_step_ok replace states r payload tr tr' r' :
  process_step w replace states r payload tr = (tr', Ok r') ->
  exists id,
    dict_get "id" (ProcessPayload.items payload) = Some id
    /\ Py.hashable id = true
    /\ (r' = add_dropped r id /\ seen r id = true
        \/ r' = add_started r id \/ r' = add_skipped r id
        \/ r' = add_failed r id).
Proof.
  unfold process_step, bind, lift, item. intros H.
  destruct (replace_flag replace payload) as [rp|]; [|discriminate].
  destruct (dict_get "id" (ProcessPayload.items payload)) as [id|] eqn:Hid;
    [|discriminate].
  destruct (states_get states id) as [st|] eqn:Hst; [|discriminate].
  exists id. split; [reflexivity|]. split; [eapply states_get_hashable; eauto|].
  destruct (seen r id) eqn:Hseen.
  - unfold record, ret in H. injection H as _ <-. auto.
  - destruct (may_start st rp).
    + right. eapply attempt_ok; eauto.
    + unfold record, ret in H. injection H as _ <-. auto.
Qed.

Lemma process_step_seen replace states r payload tr tr' r' id :
  process_step w replace states r payload tr = (tr', Ok r') ->
  dict_get "id" (ProcessPayload.items payload) = Some id ->
  seen r' id = true /\ Py.hashable id = true
  /\ forall i, seen r i = true -> seen r' i = true.
Proof.
  intros H Hid.
  destruct (process_step_ok _ _ _ _ _ _ _ H) as (id' & Hid' & Hh & Hcases).
  rewrite Hid in Hid'. injection Hid' as <-.
  pose proof (eq_atom_refl id Hh) as Hrefl.
  destruct Hcases as [ [-> Hs] | [ -> | [ -> | -> ] ] ];
    rewrite ?seen_add_dropped, ?seen_add_started, ?seen_add_skipped,
      ?seen_add_failed, ?Hrefl, ?orb_true_r; repeat split; auto;
    intros i Hi;
    rewrite ?seen_add_dropped, ?seen_add_started, ?seen_add_skipped,
      ?seen_add_failed, ?Hi; auto.
Qed.

Lemma process_loop_app replace states ps qs r tr :
  process_loop w replace states (ps ++ qs) r tr
  = match process_loop w replace states ps r tr with
    | (tr', Ok r') => process_loop w replace states qs r' tr'
    | (tr', Raise e) => (tr', Raise e)
    end.
Proof.
  revert r tr. induction ps as [|p ps IH]; intros r tr; simpl.
  - reflexivity.
  - unfold bind.
    destruct (process_step w replace states r p tr) as [tr1 [r1|e]];
      [apply IH|reflexivity].
Qed.

Lemma process_loop_seen replace states ps r tr tr' r' :
  process_loop w replace states ps r tr = (tr', Ok r') ->
  forall i, seen r i = true -> seen r' i = true.
Proof.
  revert r tr. induction ps as [|p ps IH]; simpl; intros r tr H i Hi.
  - unfold ret in H. injection H as _ <-. exact Hi.
  - unfold bind in H.
    destruct (process_step w replace states r p tr) as [tr1 [r1|e]] eqn:Hs;
      [|discriminate].
    destruct (process_step_ok _ _ _ _ _ _ _ Hs) as (id & Hid & _).
    destruct (process_step_seen _ _ _ _ _ _ _ _ Hs Hid) as (_ & _ & Hmono).
    eapply IH; eauto.
Qed.

(** The turn of an envelope whose identity was seen before. *)
Lemma process_step_duplicate replace states r payload tr id rp st :
  replace_flag replace payload = Ok rp ->
  dict_get "id" (ProcessPayload.items payload) = Some id ->
  states_get states id = Ok st ->
  seen r id = true ->
  process_step w replace states r payload tr
  = (tr ++ [Duplicated id (payload_id_to_url w id)], Ok (add_dropped r id)).
Proof.
  intros Hrp Hid Hst Hseen. unfold process_step, bind, lift, item.
  rewrite Hrp, Hid, Hst, Hseen. reflexivity.
Qed.

End BatchFacts.

Section BatchClaims.
Import ProcessPayloads.

Variable w : World.

Lemma states_get_total states id :
  Py.hashable id = true -> exists st, states_get states id = Ok st.
Proof. destruct id; simpl; try discriminate; eauto. Qed.

Lemma process_step_dropped replace states r payload tr tr' r' i :
  process_step w replace states r payload tr = (tr', Ok r') ->
  Py.in_list i (dropped r) = true -> Py.in_list i (dropped r') = true.
Proof.
  intros H Hi.
  destruct (process_step_ok _ _ _ _ _ _ _ _ H) as (id & _ & _ & Hc).
  destruct Hc as [ [-> _] | [ -> | [ -> | -> ] ] ]; simpl; auto.
  rewrite in_list_app, Hi. reflexivity.
Qed.

Lemma process_loop_dropped replace states ps r tr tr' r' i :
  process_loop w replace states ps r tr = (tr', Ok r') ->
  Py.in_list i (dropped r) = true -> Py.in_list i (dropped r') = true.
Proof.
  revert r tr. induction ps as [|p ps IH]; simpl; intros r tr H Hi.
  - unfold ret in H. injection H as _ <-. exact Hi.
  - unfold bind in H.
    destruct (process_step w replace states r p tr) as [tr1 [r1|e]] eqn:Hs;
      [|discriminate].
    eapply IH; eauto. eapply process_step_dropped; eauto.
Qed.

(** After a run over a batch that contains [p], the identity of [p] is
    in one of [started], [skipped], [failed]. *)
Lemma process_loop_member replace states pre p mid r0 tr tr' r id :
  process_loop w replace states (pre ++ p :: mid) r0 tr = (tr', Ok r) ->
  dict_get "id" (ProcessPayload.items p) = Some id ->
  seen r id = true /\ Py.hashable id = true.
Proof.
  intros H Hid. rewrite process_loop_app in H.
  destruct (process_loop w replace states pre r0 tr) as [tr1 [r1|e]];
    [|discriminate].
  simpl in H. unfold bind in H.
  destruct (process_step w replace states r1 p tr1) as [tr2 [r2|e]] eqn:Hs;
    [|discriminate].
  destruct (process_step_seen _ _ _ _ _ _ _ _ _ Hs Hid) as (Hseen & Hh & _).
  split; [|exact Hh]. eapply process_loop_seen; eauto.
Qed.

(** C2. In the loop of [process], an envelope whose identity is already
    in [started], [skipped] or [failed] is recorded as a duplicate and
    added to [dropped], and nothing else happens in its turn: no upload,
    no claim, no start request.  Hence, when a batch contains an
    identity twice and the run gets as far as the second occurrence,
    that occurrence is dropped; a run that returns has the identity in
    [dropped]. *)
Theorem process_drops_duplicates (replace : bool) (states : dict StateEnum) :
  (forall r payload tr id rp st,
     replace_flag replace payload = Ok rp ->
     dict_get "id" (ProcessPayload.items payload) = Some id ->
     states_get states id = Ok st ->
     seen r id = true ->
     process_step w replace states r payload tr
     = (tr ++ [Duplicated id (payload_id_to_url w id)], Ok (add_dropped r id)))
  /\ (forall pre p mid q r0 tr tr' r id rp,
        process_loop w replace states (pre ++ p :: mid) r0 tr = (tr', Ok r) ->
        dict_get "id" (ProcessPayload.items p) = Some id ->
        dict_get "id" (ProcessPayload.items q) = Some id ->
        replace_flag replace q = Ok rp ->
        process_loop w replace states (pre ++ p :: mid ++ [q]) r0 tr
        = (tr' ++ [Duplicated id (payload_id_to_url w id)],
           Ok (add_dropped r id)))
  /\ (forall pre p mid q post r0 tr tr' r id,
        process_loop w replace states (pre ++ p :: mid ++ q :: post) r0 tr
        = (tr', Ok r) ->
        dict_get "id" (ProcessPayload.items p) = Some id ->
        dict_get "id" (ProcessPayload.items q) = Some id ->
        Py.in_list id (dropped r) = true).
Proof.
  split; [|split].
  - intros. now apply process_step_duplicate with (rp := rp) (st := st).
  - intros pre p mid q r0 tr tr' r id rp H Hp Hq Hrp.
    destruct (process_loop_member _ _ _ _ _ _ _ _ _ _ H Hp) as (Hseen & Hh).
    destruct (states_get_total states id Hh) as (st & Hst).
    replace (pre ++ p :: mid ++ [q]) with ((pre ++ p :: mid) ++ [q])
      by (now rewrite <- app_assoc).
    rewrite process_loop_app, H. simpl. unfold bind.
    rewrite (process_step_duplicate w replace states r q tr' id rp st);
      auto.
  - intros pre p mid q post r0 tr tr' r id H Hp Hq.
    replace (pre ++ p :: mid ++ q :: post)
      with ((pre ++ p :: mid) ++ q :: post) in H
      by (now rewrite <- app_assoc).
    rewrite process_loop_app in H.
    destruct (process_loop w replace states (pre ++ p :: mid) r0 tr)
      as [tr1 [r1|e]] eqn:Hpre; [|discriminate].
    destruct (process_loop_member _ _ _ _ _ _ _ _ _ _ Hpre Hp) as (Hseen & Hh).
    simpl in H. unfold bind in H.
    destruct (process_step w replace states r1 q tr1) as [tr2 [r2|e]] eqn:Hs;
      [|discriminate].
    assert (Hr2 : r2 = add_dropped r1 id).
    { unfold process_step, bind, lift, item in Hs.
      destruct (replace_flag replace q); [|discriminate].
      rewrite Hq in Hs.
      destruct (states_get states id); [|discriminate].
      rewrite Hseen in Hs. unfold record, ret in Hs. congruence. }
    eapply process_loop_dropped; eauto.
    subst r2. simpl. rewrite in_list_app. simpl.
    rewrite (eq_atom_refl id Hh). now rewrite orb_true_r.
Qed.

(** C10. [process] catches [TerminalError] and nothing else.  A launch
    that raises it puts the identity in [failed] and the loop goes on;
    a launch that raises any other exception ends the call with that
    exception: the trace stops where the launch stopped, the envelopes
    after it are not looked at, and no mapping is returned. *)
Theorem process_catches_only_terminal (replace : bool)
    (states : dict StateEnum) :
  (forall r id payload tr tr',
     Launch.call w payload tr = (tr', Raise TerminalError) ->
     attempt w r id payload tr = (tr', Ok (add_failed r id)))
  /\ (forall r id payload tr tr' e,
        Launch.call w payload tr = (tr', Raise e) ->
        e <> TerminalError ->
        attempt w r id payload tr = (tr', Raise e))
  /\ (forall self tr tr0 pre payload post r1 tr1 tr2 e id st rp,
        payloads self = pre ++ payload :: post ->
        get_states w self tr = (tr0, Ok states) ->
        process_loop w replace states pre no_ids tr0 = (tr1, Ok r1) ->
        replace_flag replace payload = Ok rp ->
        dict_get "id" (ProcessPayload.items payload) = Some id ->
        states_get states id = Ok st ->
        seen r1 id = false ->
        may_start st rp = true ->
        Launch.call w payload tr1 = (tr2, Raise e) ->
        e <> TerminalError ->
        process w self replace tr = (tr2, Raise e)).
Proof.
  assert (Hother : forall r id payload tr tr' e,
             Launch.call w payload tr = (tr', Raise e) ->
             e <> TerminalError ->
             attempt w r id payload tr = (tr', Raise e)).
  { intros r id payload tr tr' e H Hne. unfold attempt. rewrite H.
    destruct e; congruence. }
  split; [|split].
  - intros r id payload tr tr' H. unfold attempt. now rewrite H.
  - exact Hother.
  - intros self tr tr0 pre payload post r1 tr1 tr2 e id st rp
      Hps Hstates Hpre Hrp Hid Hst Hseen Hmay Hcall Hne.
    unfold process, bind. rewrite Hstates, Hps, process_loop_app, Hpre.
    simpl. unfold bind.
    unfold process_step, bind, lift, item.
    rewrite Hrp, Hid, Hst, Hseen, Hmay.
    now rewrite (Hother r1 id payload tr1 tr2 e Hcall Hne).
Qed.

End BatchClaims.

Lemma process_drops_duplicates_witness :
  snd (ProcessPayloads.process_loop Reference.healthy false []
         [Reference.single; Reference.single] ProcessPayloads.no_ids [])
  = Ok (ProcessPayloads.mk_ids [JStr "c1/c2/workflow-publish/a/b/c"] []
          [JStr "c1/c2/workflow-publish/a/b/c"] []).
Proof.
  assert (H1 : ProcessPayloads.process_loop Reference.healthy false []
                 ([] ++ Reference.single :: []) ProcessPayloads.no_ids []
               = (fst (ProcessPayloads.process_loop Reference.healthy false []
                         [Reference.single] ProcessPayloads.no_ids []),
                  Ok (ProcessPayloads.mk_ids
                        [JStr "c1/c2/workflow-publish/a/b/c"] [] [] [])))
    by (vm_compute; reflexivity).
  pose proof (proj1 (proj2 (process_drops_duplicates Reference.healthy false []))
                [] Reference.single [] Reference.single ProcessPayloads.no_ids
                [] _ _ (JStr "c1/c2/workflow-publish/a/b/c") false
                H1 eq_refl eq_refl eq_refl) as H2.
  cbn [app] in H2. rewrite H2. reflexivity.
Defined.

Lemma process_catches_only_terminal_witness :
  ProcessPayloads.process Reference.throttled Reference.batch false []
  = ([GetDbitems [JStr "c1/c2/workflow-publish/a/b/c"; JStr "c2/workflow-publish/b"];
      S3UploadJson (JObj (ProcessPayload.items Reference.single))
        "s3://payloads/c1/c2/workflow-publish/a/b/c/input.json";
      ClaimProcessing (JStr "c1/c2/workflow-publish/a/b/c")
        "s3://payloads/c1/c2/workflow-publish/a/b/c/input.json"
        "arn:aws:states:us-west-2:123456789012:stateMachine:publish";
      StartExecution "arn:aws:states:us-west-2:123456789012:stateMachine:publish"
        "exec-1"
        (Reference.dumps (JObj (ProcessPayload.items Reference.single)))],
     Raise (ClientError "ThrottlingException" "Rate exceeded")).
Proof.
  apply (proj2 (proj2 (process_catches_only_terminal Reference.throttled false []))
           Reference.batch []
           [GetDbitems [JStr "c1/c2/workflow-publish/a/b/c";
                        JStr "c2/workflow-publish/b"]]
           [] Reference.single [Reference.chain] ProcessPayloads.no_ids
           [GetDbitems [JStr "c1/c2/workflow-publish/a/b/c";
                        JStr "c2/workflow-publish/b"]]
           _ _ (JStr "c1/c2/workflow-publish/a/b/c") None false);
    try reflexivity; discriminate.
Defined.

(** ** Topic publisher *)

Section PublisherFacts.
Import Publisher.

Lemma received_execute h :
  received (execute h) = received h ++ _batch h /\ _batch (execute h) = [].
Proof.
  unfold execute, received. destruct (_batch h) as [|m ms] eqn:E; simpl.
  - rewrite E, app_nil_r. auto.
  - rewrite concat_app. simpl. rewrite app_nil_r. auto.
Qed.

Lemma received_add_bounded m h :
  received (add_bounded m h) ++ _batch (add_bounded m h)
  = received h ++ _batch h ++ [m].
Proof.
  unfold add_bounded.
  destruct (batch_size _ <=? length _)%nat.
  - destruct (received_execute (mk (batch_size h) (_batch h ++ [m]) (sent h)))
      as (-> & ->).
    now rewrite app_nil_r.
  - reflexivity.
Qed.

Lemma add_each_accepts ms h :
  Forall (fun m => (attribute_count m <= 10)%nat) ms ->
  exists h', add_each ms h = (h', None)
             /\ received h' ++ _batch h' = received h ++ _batch h ++ ms.
Proof.
  intros H. revert h. induction H as [|m ms Hm _ IH]; intros h; simpl.
  - exists h. now rewrite app_nil_r.
  - unfold add. apply Nat.ltb_ge in Hm. rewrite Hm.
    destruct (IH (add_bounded m h)) as (h' & -> & Heq).
    exists h'. split; [reflexivity|].
    rewrite Heq, app_assoc, received_add_bounded.
    now rewrite <- !app_assoc.
Qed.

(** C8. An item with more than 10 attributes is refused by [add] with a
    validation error: the handler is left as it was, with the same
    buffer and the same batches sent, so the item was not buffered and
    no send call was made.  Items with at most 10 attributes are all
    accepted, and when the scope closes the sink has received every one
    of them, in order, and the buffer is empty. *)
Theorem add_rejects_more_than_ten_attributes :
  (forall m ms h,
     (10 < attribute_count m)%nat ->
     add m h = Raise (ValueError "SNS messages may only have 10 attributes")
     /\ add_each (m :: ms) h
        = (h, Some (ValueError "SNS messages may only have 10 attributes")))
  /\ (forall batch_size ms,
        Forall (fun m => (attribute_count m <= 10)%nat) ms ->
        exists h, publish_all batch_size ms = (h, None)
                  /\ received h = ms /\ _batch h = []).
Proof.
  split.
  - intros m ms h H. apply Nat.ltb_lt in H.
    unfold add_each, add. rewrite H. auto.
  - intros n ms H. unfold publish_all.
    destruct (add_each_accepts ms (get_handler n) H) as (h & -> & Heq).
    exists (execute h). destruct (received_execute h) as (Hr & Hb).
    repeat split; auto. rewrite Hr, Heq. reflexivity.
Qed.

End PublisherFacts.

Lemma add_rejects_more_than_ten_attributes_witness :
  Publisher.add (Reference.message "too many attrs" 11%nat) (Publisher.get_handler 3%nat)
  = Raise (ValueError "SNS messages may only have 10 attributes")
  /\ exists h,
       Publisher.publish_all 3%nat
         [Reference.message "0" 1%nat; Reference.message "1" 10%nat;
          Reference.message "2" 0%nat; Reference.message "3" 1%nat]
       = (h, None)
       /\ Publisher.received h
          = [Reference.message "0" 1%nat; Reference.message "1" 10%nat;
             Reference.message "2" 0%nat; Reference.message "3" 1%nat]
       /\ Publisher._batch h = [].
Proof.
  split.
  - apply (proj1 add_rejects_more_than_ten_attributes
             (Reference.message "too many attrs" 11%nat) [] (Publisher.get_handler 3%nat)).
    vm_compute. lia.
  - apply (proj2 add_rejects_more_than_ten_attributes 3%nat).
    repeat constructor; vm_compute; lia.
Defined.

Example publish_all_batches :
  map (@length _)
    (Publisher.sent
       (fst (Publisher.publish_all 3%nat
               (map (fun i => Reference.message (Py.str_of_Z (Z.of_nat i)) 1%nat)
                    (seq 0%nat 10%nat)))))
  = [3; 3; 3; 1]%nat.
Proof. vm_compute. reflexivity. Qed.

(** * Further properties *)

(** ** Construction, in full *)

Lemma rmap_Forall2 {A B} (f : A -> result B) l ys :
  rmap f l = Ok ys -> Forall2 (fun x y => f x = Ok y) l ys.
Proof.
  revert ys. induction l as [|x l IH]; simpl; intros ys H.
  - injection H as <-. constructor.
  - rinv H. rinv H. injection H as <-. constructor; auto.
Qed.

Lemma Forall2_rmap {A B} (f : A -> result B) l ys :
  Forall2 (fun x y => f x = Ok y) l ys -> rmap f l = Ok ys.
Proof.
  induction 1 as [|x y l ys Hx _ IH]; simpl; [reflexivity|].
  now rewrite Hx, IH.
Qed.

Lemma dict_set_absent {V} (k : string) (v : V) (d : dict V) :
  dict_get k d = None -> dict_set k v d = d ++ [(k, v)].
Proof.
  induction d as [|[k' v'] d IH]; simpl; [reflexivity|].
  destruct (String.eqb k k'); [discriminate|].
  intros H. now rewrite IH.
Qed.

Lemma dict_set_set {V} (k : string) (v : V) (d : dict V) :
  dict_set k v (dict_set k v d) = dict_set k v d.
Proof.
  induction d as [|[k' v'] d IH]; simpl.
  - now rewrite String.eqb_refl.
  - destruct (String.eqb k k') eqn:E; simpl.
    + now rewrite String.eqb_refl.
    + now rewrite E, IH.
Qed.

Lemma dict_set_same {V} (k : string) (v : V) (d : dict V) :
  dict_get k d = Some v -> dict_set k v d = d.
Proof.
  induction d as [|[k' v'] d IH]; simpl; [discriminate|].
  destruct (String.eqb k k') eqn:E.
  - apply String.eqb_eq in E. subst k'. intros H. now injection H as ->.
  - intros H. now rewrite IH.
Qed.

Section ConstructionFacts.
Import ProcessPayload.

Variable w : World.

(** Everything a successful [__init__] has checked and bound. *)
Lemma init_inv raw flag st self :
  init w raw flag st = Ok self ->
  exists step rest d tks i feats',
    dict_get "process" raw = Some (JArr (step :: rest))
    /\ step = JObj d
    /\ dict_mem "upload_options" d = true
    /\ dict_mem "workflow" d = true
    /\ dict_get "tasks" d = Some tks
    /\ (dict_get "id" raw = Some i
        \/ dict_get "id" raw = None /\ flag = true /\ exists s, i = JStr s)
    /\ Py.contains "workflow-" i = Ok true
    /\ normalize_features
         (match dict_get "features" raw with Some f => f | None => JArr [] end)
       = Ok feats'
    /\ self = mk (let d1 := match dict_get "id" raw with
                            | Some _ => raw
                            | None => dict_set "id" i raw
                            end in
                  if dict_mem "features" raw
                  then dict_set "features" feats' d1 else d1)
                step feats' tks st.
Proof.
  unfold init. intros H.
  destruct (dict_get "process" raw) as [[| | | |[|step rest]|]|] eqn:Hp;
    try discriminate.
  rinv H. rename a into self1, Ha into Hself1.
  rinv H. rename Ha into Hup.
  rinv H. rename Ha into Hwf.
  rinv H. rename Ha into Htk.
  rinv H. rename a2 into tks, Ha into Htks.
  destruct (dict_get "id" (items self1)) as [i|] eqn:Hi; [|discriminate].
  rinv H. destruct a2; simpl in H; [|discriminate].
  rinv H. rename a2 into feats', Ha0 into Hnorm. injection H as <-.
  assert (Hd : exists d, step = JObj d).
  { unfold Py.getitem in Htks. destruct step; try discriminate. eauto. }
  destruct Hd as [d ->].
  exists (JObj d), rest, d, tks, i, feats'.
  unfold require in Hup, Hwf, Htk. simpl in Hup, Hwf, Htk, Htks.
  destruct (dict_mem "upload_options" d); [|discriminate].
  destruct (dict_mem "workflow" d); [|discriminate].
  destruct (dict_get "tasks" d) as [tks'|]; [|discriminate].
  injection Htks as ->.
  repeat split; auto.
  - destruct (dict_get "id" raw) as [j|] eqn:Hj.
    + left. assert (Hm : dict_mem "id" raw = true) by (apply dict_mem_get; eauto).
      rewrite Hm in Hself1. simpl in Hself1. injection Hself1 as <-.
      simpl in Hi. congruence.
    + right. assert (Hm : dict_mem "id" raw = false) by now apply dict_mem_false.
      rewrite Hm in Hself1. simpl in Hself1.
      destruct flag.
      * destruct (set_id_items w _ _ Hself1 Hj) as (s & Hs).
        rewrite Hs, dict_get_set_eq in Hi. injection Hi as <-. eauto.
      * injection Hself1 as <-. simpl in Hi. congruence.
  - f_equal.
    destruct (dict_get "id" raw) as [j|] eqn:Hj.
    + assert (Hm : dict_mem "id" raw = true) by (apply dict_mem_get; eauto).
      rewrite Hm in Hself1. simpl in Hself1. injection Hself1 as <-.
      reflexivity.
    + assert (Hm : dict_mem "id" raw = false) by now apply dict_mem_false.
      rewrite Hm in Hself1. simpl in Hself1.
      destruct flag.
      * destruct (set_id_items w _ _ Hself1 Hj) as (s & Hs).
        rewrite Hs, dict_get_set_eq in Hi. injection Hi as <-.
        now rewrite Hs.
      * injection Hself1 as <-. simpl in Hi. congruence.
Qed.

End ConstructionFacts.

Section ConstructionExtras.
Import ProcessPayload.

Variable w : World.

Lemma add_links_inv f f' :
  add_links f = Ok f' ->
  Py.contains "links" f' = Ok true
  /\ (f' = f
      \/ exists d, f = JObj d /\ dict_get "links" d = None
                   /\ f' = JObj (d ++ [("links", JArr [])])).
Proof.
  unfold add_links. intros H. rinv H. destruct a.
  - injection H as <-. auto.
  - destruct f; simpl in *; try discriminate.
    injection Ha as Ha. injection H as <-.
    apply dict_mem_false in Ha. split.
    + simpl. unfold dict_mem. now rewrite dict_get_set_eq.
    + right. exists kvs. repeat split; auto.
      now rewrite dict_set_absent.
Qed.

Lemma add_links_again f f' : add_links f = Ok f' -> add_links f' = Ok f'.
Proof.
  intros H. apply add_links_inv in H. destruct H as [H _].
  unfold add_links. now rewrite H.
Qed.

Lemma normalize_features_again feats feats' :
  normalize_features feats = Ok feats' ->
  normalize_features feats' = Ok feats'.
Proof.
  unfold normalize_features. intros H. rinv H. rinv H. injection H as <-.
  destruct feats; try (simpl in Ha; discriminate).
  - rewrite Ha. simpl. now rewrite Ha0.
  - simpl in Ha. injection Ha as <-. simpl.
    assert (H : rmap add_links a0 = Ok a0).
    { apply Forall2_rmap. apply rmap_Forall2 in Ha0.
      eapply Forall2_flip, Forall2_impl in Ha0;
        [|intros f f' Hf; exact (add_links_again _ _ Hf)].
      clear -Ha0. induction Ha0; constructor; auto. }
    now rewrite H.
  - rewrite Ha. simpl. now rewrite Ha0.
Qed.

(** X1. The active step of a constructed envelope is a mapping with
    [upload_options], [workflow] and [tasks]; it is the head of the
    [process] entry, which construction leaves as it was; [tasks] is the
    step's [tasks] and [state_item] the one passed in. *)
Theorem init_active_step (raw : dict json) (flag : bool) (st : option json)
    (self : t) :
  init w raw flag st = Ok self ->
  exists d rest tks,
    dict_get "process" raw = Some (JArr (JObj d :: rest))
    /\ dict_get "process" (items self) = Some (JArr (JObj d :: rest))
    /\ process self = JObj d
    /\ dict_mem "upload_options" d = true
    /\ dict_mem "workflow" d = true
    /\ dict_get "tasks" d = Some tks
    /\ tasks self = tks
    /\ state_item self = st.
Proof.
  intros H.
  destruct (init_inv w raw flag st self H)
    as (step & rest & d & tks & i & feats' & Hp & -> & Hu & Hw & Ht & Hi & _ & _ & ->).
  exists d, rest, tks. simpl. repeat split; auto.
  assert (H1 : dict_get "process"
                 (match dict_get "id" raw with
                  | Some _ => raw
                  | None => dict_set "id" i raw
                  end) = Some (JArr (JObj d :: rest))).
  { destruct (dict_get "id" raw); [exact Hp|].
    now rewrite dict_get_set_ne by discriminate. }
  destruct (dict_mem "features" raw); [|exact H1].
  now rewrite dict_get_set_ne by discriminate.
Qed.

(** X2. Construction gives every feature a [links] entry and changes
    nothing else: when the raw [features] is a list, the envelope's
    [features] attribute and its [features] entry are the same list, of
    the same length and order, in which a feature that had [links] is
    unchanged and a mapping without [links] has [links: []] appended.
    Without a [features] entry the attribute is the empty list and the
    dict gets no such entry. *)
Theorem init_features_links (raw : dict json) (flag : bool) (st : option json)
    (self : t) :
  init w raw flag st = Ok self ->
  (forall fs,
     dict_get "features" raw = Some (JArr fs) ->
     exists fs',
       features self = JArr fs'
       /\ dict_get "features" (items self) = Some (JArr fs')
       /\ Forall2 (fun f f' =>
                     Py.contains "links" f' = Ok true
                     /\ (f' = f
                         \/ exists d, f = JObj d /\ dict_get "links" d = None
                                      /\ f' = JObj (d ++ [("links", JArr [])])))
                  fs fs')
  /\ (dict_get "features" raw = None ->
      features self = JArr [] /\ dict_get "features" (items self) = None).
Proof.
  intros H.
  destruct (init_inv w raw flag st self H)
    as (step & rest & d & tks & i & feats' & _ & _ & _ & _ & _ & _ & _ & Hn & ->).
  split.
  - intros fs Hfs. rewrite Hfs in Hn. unfold normalize_features in Hn.
    simpl in Hn. rinv Hn. injection Hn as <-.
    exists a. simpl. split; [reflexivity|].
    assert (Hm : dict_mem "features" raw = true) by (apply dict_mem_get; eauto).
    rewrite Hm. split; [apply dict_get_set_eq|].
    apply rmap_Forall2 in Ha.
    eapply Forall2_impl; [exact Ha|].
    intros f f' Hf. now apply add_links_inv.
  - intros Hnone. rewrite Hnone in Hn. injection Hn as <-. simpl.
    split; [reflexivity|].
    assert (Hm : dict_mem "features" raw = false) by now apply dict_mem_false.
    rewrite Hm.
    destruct (dict_get "id" raw); [exact Hnone|].
    now rewrite dict_get_set_ne by discriminate.
Qed.

(** X3. Construction is idempotent: building an envelope again from the
    dict of a constructed envelope succeeds, whatever [set_id_if_missing]
    is, and gives the same dict and the same [process], [features] and
    [tasks]. *)
Theorem init_idempotent (raw : dict json) (flag flag' : bool)
    (st st' : option json) (self : t) :
  init w raw flag st = Ok self ->
  init w (items self) flag' st'
  = Ok (mk (items self) (process self) (features self) (tasks self) st').
Proof.
  intros H.
  destruct (init_inv w raw flag st self H)
    as (step & rest & d & tks & i & feats' & Hp & -> & Hu & Hw & Ht & Hi & Hc & Hn & ->).
  simpl items. simpl process. simpl features. simpl tasks.
  set (d1 := match dict_get "id" raw with
             | Some _ => raw
             | None => dict_set "id" i raw
             end).
  set (d2 := if dict_mem "features" raw then dict_set "features" feats' d1 else d1).
  assert (Hid1 : dict_get "id" d1 = Some i).
  { unfold d1. destruct (dict_get "id" raw) eqn:E.
    - destruct Hi as [Hi|[Hi _]]; congruence.
    - apply dict_get_set_eq. }
  assert (Hp1 : dict_get "process" d1 = Some (JArr (JObj d :: rest))).
  { unfold d1. destruct (dict_get "id" raw); [exact Hp|].
    now rewrite dict_get_set_ne by discriminate. }
  assert (Hf1 : dict_get "features" d1 = dict_get "features" raw).
  { unfold d1. destruct (dict_get "id" raw); [reflexivity|].
    now rewrite dict_get_set_ne by discriminate. }
  assert (Hid2 : dict_get "id" d2 = Some i).
  { unfold d2. destruct (dict_mem "features" raw); [|exact Hid1].
    now rewrite dict_get_set_ne by discriminate. }
  assert (Hp2 : dict_get "process" d2 = Some (JArr (JObj d :: rest))).
  { unfold d2. destruct (dict_mem "features" raw); [|exact Hp1].
    now rewrite dict_get_set_ne by discriminate. }
  assert (Hf2 : match dict_get "features" d2 with
                | Some f => f
                | None => JArr []
                end = feats'
                /\ dict_mem "features" d2 = dict_mem "features" raw
                /\ (if dict_mem "features" raw
                    then dict_set "features" feats' d2 else d2) = d2).
  { unfold d2. destruct (dict_mem "features" raw) eqn:Hm.
    - rewrite dict_get_set_eq. unfold dict_mem. rewrite dict_get_set_eq.
      rewrite dict_set_set. auto.
    - apply dict_mem_false in Hm. rewrite Hf1. unfold dict_mem.
      rewrite Hf1, Hm. rewrite Hm in Hn. injection Hn as <-. auto. }
  destruct Hf2 as (Hf2 & Hm2 & Hset).
  unfold init. rewrite Hp2, Hf2.
  assert (Hmid : dict_mem "id" d2 = true) by (apply dict_mem_get; eauto).
  rewrite Hmid. simpl negb. simpl andb. cbv iota. simpl rbind at 1.
  unfold require. simpl Py.contains. rewrite Hu, Hw.
  assert (Hmt : dict_mem "tasks" d = true) by (apply dict_mem_get; eauto).
  rewrite Hmt. simpl. rewrite Ht. simpl. rewrite Hid2, Hc. simpl.
  rewrite (normalize_features_again _ _ Hn). simpl.
  rewrite Hm2, Hset. reflexivity.
Qed.

End ConstructionExtras.

Lemma init_active_step_witness :
  exists d rest tks,
    dict_get "process" Reference.raw_chain = Some (JArr (JObj d :: rest))
    /\ dict_get "process" (ProcessPayload.items Reference.chain)
       = Some (JArr (JObj d :: rest))
    /\ ProcessPayload.process Reference.chain = JObj d
    /\ dict_mem "upload_options" d = true
    /\ dict_mem "workflow" d = true
    /\ dict_get "tasks" d = Some tks
    /\ ProcessPayload.tasks Reference.chain = tks
    /\ ProcessPayload.state_item Reference.chain = None.
Proof.
  apply (init_active_step Reference.healthy Reference.raw_chain false None
           Reference.chain).
  reflexivity.
Defined.

Lemma init_features_links_witness :
  exists fs',
    ProcessPayload.features Reference.single = JArr fs'
    /\ dict_get "features" (ProcessPayload.items Reference.single)
       = Some (JArr fs')
    /\ Forall2 (fun f f' =>
                  Py.contains "links" f' = Ok true
                  /\ (f' = f
                      \/ exists d, f = JObj d /\ dict_get "links" d = None
                                   /\ f' = JObj (d ++ [("links", JArr [])])))
               [Reference.feature "b" "c2"; Reference.feature "a" "c1";
                Reference.feature "c" "c1"]
               fs'.
Proof.
  apply (proj1 (init_features_links Reference.healthy Reference.raw_single true
                  None Reference.single ltac:(vm_compute; reflexivity))).
  reflexivity.
Defined.

Lemma init_idempotent_witness :
  ProcessPayload.init Reference.healthy
    (ProcessPayload.items Reference.single) false None
  = Ok Reference.single.
Proof.
  apply (init_idempotent Reference.healthy Reference.raw_single true false
           None None Reference.single).
  vm_compute. reflexivity.
Defined.

(** ** Identity, in full *)

Lemma prefix_app n b : String.prefix n (n +:+ b) = true.
Proof.
  induction n as [|c n IH]; simpl.
  - now destruct b.
  - destruct (ascii_dec c c); [exact IH|congruence].
Qed.

Lemma str_contains_app a n b : Py.str_contains n (a +:+ n +:+ b) = true.
Proof.
  induction a as [|c a IH].
  - pose proof (prefix_app n b) as H.
    change ("" +:+ n +:+ b) with (n +:+ b).
    destruct (n +:+ b); cbn [Py.str_contains]; now rewrite H.
  - change (String c a +:+ n +:+ b) with (String c (a +:+ n +:+ b)).
    cbn [Py.str_contains]. rewrite IH. apply orb_true_r.
Qed.

Lemma str_app_assoc (a b c : string) : (a +:+ b) +:+ c = a +:+ b +:+ c.
Proof.
  induction a as [|x a IH]; [reflexivity|].
  change (String x ((a +:+ b) +:+ c) = String x (a +:+ b +:+ c)).
  now f_equal.
Qed.

Lemma sorted_is_sorted l :
  Sorted Py.str_le (Py.sorted l) /\ Py.sorted l ≡ₚ l.
Proof.
  split.
  - apply Sorted_merge_sort. apply str_le_total.
  - apply merge_sort_Permutation.
Qed.

Section IdentityExtras.
Import ProcessPayload.

Variable w : World.

(** X4. [set_id] on an envelope without [id] only adds the [id] entry,
    and the identity it assigns is a string that contains [workflow-],
    so it always passes the test the constructor makes afterwards. *)
Theorem set_id_assigns_valid_id (self self' : t) :
  dict_get "id" (items self) = None ->
  set_id w self = Ok self' ->
  exists s,
    dict_get "id" (items self') = Some (JStr s)
    /\ Py.str_contains "workflow-" s = true
    /\ (forall k, k <> "id" -> dict_get k (items self') = dict_get k (items self))
    /\ process self' = process self
    /\ features self' = features self.
Proof.
  intros Hn H. unfold set_id in H.
  apply dict_mem_false in Hn. rewrite Hn in H.
  destruct (negb (Py.truthy (features self))); [discriminate|].
  rinv H. injection H as <-. simpl.
  exists a. split; [apply dict_get_set_eq|]. split.
  - unfold derive_id in Ha. rinv Ha. rinv Ha. rinv Ha. rinv Ha.
    injection Ha as <-.
    change (Py.str_contains "workflow-"
              (format w a1 +:+ "/" +:+ "workflow-" +:+ format w a3 +:+ "/" +:+ a2)
            = true).
    rewrite <- (str_app_assoc (format w a1) "/").
    apply str_contains_app.
  - repeat split; auto.
    intros k Hk. apply dict_get_set_ne. congruence.
Qed.

Lemma rmap_ids fs ids :
  Forall2 (fun f i => exists d, f = JObj d /\ dict_get "id" d = Some (JStr i))
    fs ids ->
  rmap (fun i => Py.getitem i "id") fs = Ok (map JStr ids).
Proof.
  induction 1 as [|f i fs ids (d & -> & Hd) _ IH]; simpl; [reflexivity|].
  now rewrite Hd, IH.
Qed.

Lemma all_str_map l : all_str (map JStr l) = Ok l.
Proof.
  unfold all_str. induction l as [|s l IH]; simpl; [reflexivity|].
  now rewrite IH.
Qed.

Lemma rmap_collections fs cols :
  Forall2 (fun f c => exists d, f = JObj d
                                /\ dict_get "collection" d = option_map JStr c)
    fs cols ->
  rmap feature_collection fs = Ok (map (option_map JStr) cols).
Proof.
  induction 1 as [|f c fs cols (d & -> & Hd) _ IH]; simpl; [reflexivity|].
  unfold feature_collection at 1. simpl. unfold dict_mem. rewrite Hd.
  destruct c; simpl; now rewrite IH.
Qed.

Lemma omap_option_map (cols : list (option string)) :
  omap id (map (option_map JStr) cols) = map JStr (omap id cols).
Proof.
  induction cols as [|[c|] cols IH]; simpl; [reflexivity| |exact IH].
  f_equal. exact IH.
Qed.

(** X5. The identity of an envelope whose features are mappings with a
    string [id] and, where present, a string [collection]: the
    collections override of the step when it has one, else the distinct
    collections in ascending order joined by [/], else [none]; then
    [/workflow-], the workflow name, [/], and the feature ids in
    ascending order joined by [/]. *)
Theorem derive_id_format (step : dict json) (fs : list json)
    (ids : list string) (cols : list (option string)) (wf : string) :
  dict_get "workflow" step = Some (JStr wf) ->
  Forall2 (fun f i => exists d, f = JObj d /\ dict_get "id" d = Some (JStr i))
    fs ids ->
  Forall2 (fun f c => exists d, f = JObj d
                                /\ dict_get "collection" d = option_map JStr c)
    fs cols ->
  derive_id w (JObj step) (JArr fs)
  = Ok (match dict_get "collections" step with
        | Some c => format w c
        | None =>
            match Py.sorted_set (omap id cols) with
            | [] => "none"
            | c :: cs => Py.join "/" (c :: cs)
            end
        end
        +:+ "/workflow-" +:+ wf +:+ "/" +:+ Py.join "/" (Py.sorted ids))
  /\ Sorted Py.str_le (Py.sorted ids) /\ Py.sorted ids ≡ₚ ids.
Proof.
  intros Hwf Hids Hcols. split; [|apply sorted_is_sorted].
  unfold derive_id, items_str, collections. simpl.
  rewrite (rmap_ids _ _ Hids). simpl. rewrite all_str_map. simpl.
  rewrite Hwf. unfold dict_mem.
  destruct (dict_get "collections" step) as [c|]; simpl; [reflexivity|].
  rewrite (rmap_collections _ _ Hcols). simpl.
  rewrite omap_option_map, all_str_map. simpl.
  destruct (Py.sorted_set (omap id cols)); reflexivity.
Qed.

End IdentityExtras.

Lemma set_id_assigns_valid_id_witness :
  exists s,
    dict_get "id" (ProcessPayload.items
                     (ProcessPayload.with_items Reference.unidentified
                        (dict_set "id" (JStr "c1/c2/workflow-publish/a/b/c")
                           Reference.raw_single)))
    = Some (JStr s)
    /\ Py.str_contains "workflow-" s = true
    /\ (forall k, k <> "id" ->
        dict_get k (ProcessPayload.items
                      (ProcessPayload.with_items Reference.unidentified
                         (dict_set "id" (JStr "c1/c2/workflow-publish/a/b/c")
                            Reference.raw_single)))
        = dict_get k (ProcessPayload.items Reference.unidentified))
    /\ ProcessPayload.process
         (ProcessPayload.with_items Reference.unidentified
            (dict_set "id" (JStr "c1/c2/workflow-publish/a/b/c")
               Reference.raw_single))
       = ProcessPayload.process Reference.unidentified
    /\ ProcessPayload.features
         (ProcessPayload.with_items Reference.unidentified
            (dict_set "id" (JStr "c1/c2/workflow-publish/a/b/c")
               Reference.raw_single))
       = ProcessPayload.features Reference.unidentified.
Proof.
  apply (set_id_assigns_valid_id Reference.healthy Reference.unidentified).
  - reflexivity.
  - vm_compute. reflexivity.
Defined.

Lemma derive_id_format_witness :
  ProcessPayload.derive_id Reference.healthy (Reference.step "publish" [])
    (JArr [Reference.feature "b" "c2"; Reference.feature "a" "c1";
           Reference.feature "c" "c1"])
  = Ok "c1/c2/workflow-publish/a/b/c".
Proof.
  pose proof (proj1 (derive_id_format Reference.healthy
                [("workflow", JStr "publish"); ("upload_options", JObj []);
                 ("tasks", JObj [])]
                [Reference.feature "b" "c2"; Reference.feature "a" "c1";
                 Reference.feature "c" "c1"]
                ["b"; "a"; "c"] [Some "c2"; Some "c1"; Some "c1"] "publish"
                eq_refl
                ltac:(repeat constructor; eexists; split; reflexivity)
                ltac:(repeat constructor; eexists; split; reflexivity))) as H.
  exact H.
Defined.

(** ** Chaining, in full *)

Lemma dict_get_del_eq {V} (k : string) (d : dict V) :
  NoDup (map fst d) -> dict_get k (dict_del k d) = None.
Proof.
  induction d as [|[k' v'] d IH]; simpl; intros Hnd; [reflexivity|].
  apply NoDup_cons in Hnd. destruct Hnd as [Hk Hnd].
  destruct (String.eqb k k') eqn:E; simpl.
  - apply String.eqb_eq in E. subst k'.
    destruct (dict_get k d) as [v|] eqn:Hg; [|reflexivity].
    exfalso. apply Hk. clear -Hg.
    induction d as [|[k0 v0] d IH]; simpl in *; [discriminate|].
    destruct (String.eqb k k0) eqn:E.
    + apply String.eqb_eq in E. subst. left.
    + right. auto.
  - rewrite E. auto.
Qed.

Lemma gen_for_ok {A B} (f : A -> result B) l ys :
  rmap f l = Ok ys -> gen_for f l = (ys, None).
Proof.
  revert ys. induction l as [|x l IH]; simpl; intros ys H.
  - now injection H as <-.
  - rinv H. rinv H. injection H as <-. now rewrite Ha, (IH _ Ha0).
Qed.

Lemma gen_for_raise {A B} (f : A -> result B) pre x post earlier e :
  rmap f pre = Ok earlier -> f x = Raise e ->
  gen_for f (pre ++ x :: post) = (earlier, Some e).
Proof.
  revert earlier. induction pre as [|a pre IH]; simpl; intros earlier H Hx.
  - injection H as <-. now rewrite Hx.
  - rinv H. rinv H. injection H as <-. now rewrite Ha, (IH _ Ha0 Hx).
Qed.

Section ChainingExtras.
Import ProcessPayload.

Variable w : World.

(** X6. A successor is the parent with the identity removed and the
    step being entered in place of the first two entries of [process];
    every other entry is the parent's, [features] too unless the step
    has a [chain_filter].  The attributes [process], [features] and
    [tasks] of the copy still are the parent's.  Having no [id], the
    successor's dict is refused by the constructor unless
    [set_id_if_missing] is set. *)
Theorem successor_shape (self new : t) (first second step : json)
    (rest : list json) :
  NoDup (map fst (items self)) ->
  dict_get "process" (items self) = Some (JArr (first :: second :: rest)) ->
  successor w self step = Ok new ->
  dict_get "id" (items new) = None
  /\ dict_get "process" (items new) = Some (JArr (step :: rest))
  /\ (forall k, k <> "id" -> k <> "process" -> k <> "features" ->
      dict_get k (items new) = dict_get k (items self))
  /\ (Py.contains "chain_filter" step = Ok false ->
      dict_get "features" (items new) = dict_get "features" (items self))
  /\ process new = process self
  /\ features new = features self
  /\ tasks new = tasks self
  /\ forall st, exists e, init w (items new) false st = Raise e.
Proof.
  intros Hnd Hp H. unfold successor in H.
  destruct (dict_mem "id" (items self)); [|discriminate]. simpl in H.
  rewrite dict_get_del_ne in H by discriminate. rewrite Hp in H.
  rinv H.
  set (d2 := dict_set "process" (JArr (step :: rest))
               (dict_del "id" (items self))) in *.
  assert (Hid2 : dict_get "id" d2 = None).
  { unfold d2. rewrite dict_get_set_ne by discriminate.
    now apply dict_get_del_eq. }
  assert (Hp2 : dict_get "process" d2 = Some (JArr (step :: rest)))
    by apply dict_get_set_eq.
  assert (Hk2 : forall k, k <> "id" -> k <> "process" ->
                          dict_get k d2 = dict_get k (items self)).
  { intros k H1 H2. unfold d2.
    rewrite dict_get_set_ne by congruence.
    apply dict_get_del_ne. congruence. }
  assert (Hshape :
    dict_get "id" (items new) = None
    /\ dict_get "process" (items new) = Some (JArr (step :: rest))
    /\ (forall k, k <> "id" -> k <> "process" -> k <> "features" ->
        dict_get k (items new) = dict_get k (items self))
    /\ (Py.contains "chain_filter" step = Ok false ->
        dict_get "features" (items new) = dict_get "features" (items self))
    /\ process new = process self
    /\ features new = features self
    /\ tasks new = tasks self).
  { destruct a.
    - rinv H. rinv H. injection H as <-. simpl.
      split; [now rewrite dict_get_set_ne by discriminate|].
      split; [now rewrite dict_get_set_ne by discriminate|].
      split; [intros k H1 H2 H3; rewrite dict_get_set_ne by congruence; auto|].
      split; [congruence|]. auto.
    - injection H as <-. simpl.
      split; [exact Hid2|]. split; [exact Hp2|].
      split; [intros; apply Hk2; auto|].
      split; [intros _; apply Hk2; discriminate|]. auto. }
  destruct Hshape as (H1 & H2 & H3 & H4 & H5 & H6 & H7).
  repeat split; auto.
  intros st. destruct (init w (items new) false st) as [x|e] eqn:Hi; [|eauto].
  destruct (init_inv w _ _ _ _ Hi)
    as (? & ? & ? & ? & ? & ? & _ & _ & _ & _ & _ & Hid & _).
  destruct Hid as [Hid|(_ & Hid & _)]; congruence.
Qed.

(** X7. A second step that is a sequence gives one successor per entry,
    in the order of the entries (none for an empty sequence); if the
    body of the loop raises for an entry, the generator yields the
    successors of the entries before it and ends with that exception. *)
Theorem next_payloads_sequence (self : t) (first : json)
    (steps rest : list json) :
  dict_get "process" (items self) = Some (JArr (first :: JArr steps :: rest)) ->
  (forall news,
     rmap (successor w self) steps = Ok news ->
     next_payloads w self = (news, None) /\ length news = length steps)
  /\ (forall pre step post earlier e,
        steps = pre ++ step :: post ->
        rmap (successor w self) pre = Ok earlier ->
        successor w self step = Raise e ->
        next_payloads w self = (earlier, Some e)).
Proof.
  intros Hp. unfold next_payloads. rewrite Hp. simpl. split.
  - intros news H. split; [now apply gen_for_ok|].
    apply rmap_Forall2 in H. symmetry. eapply Forall2_length; eauto.
  - intros pre step post earlier e -> Hpre Hs. now apply gen_for_raise.
Qed.

End ChainingExtras.

(** ** Launch, in full *)

Section LaunchExtras.
Import ProcessPayload Launch.

Variable w : World.

(** [get_payload] makes at most one call, an upload of the envelope. *)
Lemma get_payload_trace self tr tr2 r :
  get_payload w self tr = (tr2, r) ->
  tr2 = tr \/ exists url, tr2 = tr ++ [S3UploadJson (JObj (items self)) url].
Proof.
  unfold get_payload. intros H.
  destruct (payload_length w self <=? MAX_PAYLOAD_LENGTH).
  { injection H as <- _. auto. }
  destruct (getenv_nonempty w "CIRRUS_PAYLOAD_BUCKET") as [b|].
  - unfold bind, upload_to_s3 in H.
    destruct (dict_get "url" (items self)).
    + injection H as <- _. auto.
    + unfold bind, call_unit, ret in H.
      destruct (s3_upload_json w tr _ _); injection H as <- _; eauto.
  - injection H as <- _. auto.
Qed.

(** The [try] block, call by call. *)
Lemma start_workflow_eq self id arn url tr :
  start_workflow w self id arn url tr
  = match s3_upload_json w tr (JObj (items self)) url with
    | Some e => (tr ++ [S3UploadJson (JObj (items self)) url], Raise e)
    | None =>
        match claim_processing w
                (tr ++ [S3UploadJson (JObj (items self)) url]) id url arn with
        | Raise e =>
            (tr ++ [S3UploadJson (JObj (items self)) url;
                    ClaimProcessing id url arn], Raise e)
        | Ok name =>
            match get_payload w self
                    (tr ++ [S3UploadJson (JObj (items self)) url;
                            ClaimProcessing id url arn]) with
            | (tr2, Raise e) => (tr2, Raise e)
            | (tr2, Ok payload) =>
                match start_execution w tr2 arn name
                        (json_dumps w (JObj payload)) with
                | Some e =>
                    (tr2 ++ [StartExecution arn name (json_dumps w (JObj payload))],
                     Raise e)
                | None =>
                    (tr2 ++ [StartExecution arn name (json_dumps w (JObj payload));
                             StartedProcessing id (arn +:+ ":" +:+ name) url],
                     match started_processing w
                             (tr2 ++ [StartExecution arn name
                                        (json_dumps w (JObj payload))])
                             id (arn +:+ ":" +:+ name) url with
                     | Some e => Raise e
                     | None => Ok id
                     end)
                end
            end
        end
    end.
Proof.
  unfold start_workflow, bind, call_unit, call_val, ret.
  destruct (s3_upload_json w tr _ _); [reflexivity|].
  destruct (claim_processing w _ id url arn) as [name|e];
    rewrite <- !app_assoc; simpl; [|reflexivity].
  destruct (get_payload w self _) as [tr2 [payload|e]]; [|reflexivity].
  destruct (start_execution w tr2 _ _ _); [reflexivity|].
  rewrite <- !app_assoc. simpl.
  destruct (started_processing w _ _ _ _); reflexivity.
Qed.

(** What the [try] block leaves in the trace: the upload of the input
    first, never a [Failed] event, and a start request only after a
    claim that returned the execution name it carries. *)
Lemma start_workflow_trace self id arn url tr tr1 r :
  start_workflow w self id arn url tr = (tr1, r) ->
  exists evs,
    tr1 = tr ++ S3UploadJson (JObj (items self)) url :: evs
    /\ (forall i m u, ~ In (Failed i m u) evs)
    /\ (forall a n inp,
          In (StartExecution a n inp) evs ->
          a = arn
          /\ claim_processing w (tr ++ [S3UploadJson (JObj (items self)) url])
               id url arn = Ok n
          /\ exists rest, evs = ClaimProcessing id url arn :: rest)
    /\ (forall i, r = Ok i ->
        i = id
        /\ exists pre a n inp,
             evs = pre ++ [StartExecution a n inp;
                           StartedProcessing id (a +:+ ":" +:+ n) url]).
Proof.
  rewrite start_workflow_eq. intros H.
  destruct (s3_upload_json w tr _ _).
  { injection H as <- <-. exists []. repeat split; try easy. }
  destruct (claim_processing w _ id url arn) as [name|e] eqn:Hclaim.
  2:{ injection H as <- <-. exists [ClaimProcessing id url arn].
      repeat split; try easy.
      - intros i m u [Hin|[]]. discriminate.
      - destruct H as [H|[]]; discriminate.
      - destruct H as [H|[]]; discriminate.
      - destruct H as [H|[]]; discriminate. }
  destruct (get_payload w self _) as [tr2 rp] eqn:Hgp.
  assert (Hgp' : exists gp,
             tr2 = tr ++ S3UploadJson (JObj (items self)) url
                        :: ClaimProcessing id url arn :: gp
             /\ (gp = [] \/ exists u, gp = [S3UploadJson (JObj (items self)) u])).
  { destruct (get_payload_trace _ _ _ _ Hgp) as [->|[u ->]].
    - exists []. auto.
    - exists [S3UploadJson (JObj (items self)) u].
      rewrite <- app_assoc. simpl. eauto. }
  destruct Hgp' as (gp & -> & Hgpshape).
  assert (Hnf : forall evs',
             (forall i m u, ~ In (Failed i m u) evs') ->
             forall i m u,
               ~ In (Failed i m u) (ClaimProcessing id url arn :: gp ++ evs')).
  { intros evs' Hevs' i m u [Hin|Hin]; [discriminate|].
    apply in_app_or in Hin. destruct Hin as [Hin|Hin]; [|eapply Hevs'; eauto].
    destruct Hgpshape as [->|[u' ->]]; [easy|].
    destruct Hin as [Hin|[]]. discriminate. }
  assert (Hst : forall evs' a n inp,
             (forall x, In x evs' ->
                        (exists inp0, x = StartExecution arn name inp0)
                        \/ exists e1 e2 e3, x = StartedProcessing e1 e2 e3) ->
             In (StartExecution a n inp)
                (ClaimProcessing id url arn :: gp ++ evs') ->
             a = arn /\ n = name).
  { intros evs' a n inp Hevs' [Hin|Hin]; [discriminate|].
    apply in_app_or in Hin. destruct Hin as [Hin|Hin].
    - destruct Hgpshape as [->|[u' ->]]; [easy|].
      destruct Hin as [Hin|[]]. discriminate.
    - destruct (Hevs' _ Hin) as [(inp0 & Heq)|(e1 & e2 & e3 & Heq)];
        [|discriminate].
      injection Heq as -> -> _. auto. }
  destruct rp as [payload|e].
  2:{ injection H as <- <-. exists (ClaimProcessing id url arn :: gp).
      split; [reflexivity|]. split; [|split].
      - intros i m u Hin. apply (Hnf [] ltac:(easy) i m u).
        now rewrite app_nil_r.
      - intros a n inp Hin.
        destruct (Hst [] a n inp) as [-> ->];
          [easy|now rewrite app_nil_r|]. eauto.
      - discriminate. }
  destruct (start_execution w _ arn name _) as [e|].
  { injection H as <- <-.
    exists (ClaimProcessing id url arn
              :: gp ++ [StartExecution arn name (json_dumps w (JObj payload))]).
    split; [now rewrite <- app_assoc|]. split; [|split].
    - apply Hnf. intros i m u [Hin|[]]. discriminate.
    - intros a n inp Hin.
      destruct (Hst [StartExecution arn name (json_dumps w (JObj payload))]
                  a n inp) as [-> ->];
        [intros x [<-|[]]; eauto|exact Hin|]. eauto.
    - discriminate. }
  injection H as <- <-.
  exists (ClaimProcessing id url arn
            :: gp ++ [StartExecution arn name (json_dumps w (JObj payload));
                      StartedProcessing id (arn +:+ ":" +:+ name) url]).
  split; [now rewrite <- app_assoc|]. split; [|split].
  - apply Hnf. intros i m u [Hin|[Hin|[]]]; discriminate.
  - intros a n inp Hin.
    destruct (Hst [StartExecution arn name (json_dumps w (JObj payload));
                   StartedProcessing id (arn +:+ ":" +:+ name) url]
                a n inp) as [-> ->];
      [intros x [<-|[<-|[]]]; eauto 6|exact Hin|]. eauto.
  - intros i Hi.
    destruct (started_processing w _ _ _ _); [discriminate|].
    injection Hi as <-. split; [reflexivity|].
    exists (ClaimProcessing id url arn :: gp), arn, name,
      (json_dumps w (JObj payload)).
    reflexivity.
Qed.

End LaunchExtras.

Section LaunchOutcomes.
Import ProcessPayload Launch.

Variable w : World.

(** Before the [try] block [__call__] touches nothing. *)
Lemma call_inv self tr tr' r :
  call w self tr = (tr', r) ->
  (tr' = tr /\ exists e, r = Raise e
                         /\ (forall code msg, e <> ClientError code msg)
                         /\ e <> TerminalError)
  \/ exists bucket arn id tr1 r1,
       getenv_nonempty w "CIRRUS_PAYLOAD_BUCKET" = Some bucket
       /\ workflow_arn w self = Ok arn
       /\ dict_get "id" (items self) = Some id
       /\ start_workflow w self id arn (input_url w bucket id) tr = (tr1, r1)
       /\ handle id (input_url w bucket id) r1 tr1 = (tr', r).
Proof.
  unfold call, bind, lift, throw. intros H.
  destruct (getenv_nonempty w "CIRRUS_PAYLOAD_BUCKET") as [bucket|].
  2:{ injection H as <- <-. left. split; [reflexivity|]. eexists.
      split; [reflexivity|]. split; discriminate. }
  destruct (workflow_arn w self) as [arn|e] eqn:Harn.
  2:{ injection H as <- <-. left. split; [reflexivity|]. exists e.
      split; [reflexivity|].
      unfold workflow_arn in Harn.
      destruct (Py.getitem (process self) "workflow") as [v|e'] eqn:Hg.
      - simpl in Harn.
        destruct (getenv w "CIRRUS_BASE_WORKFLOW_ARN"); [destruct v|];
          try discriminate; injection Harn as <-; split; discriminate.
      - simpl in Harn. injection Harn as <-.
        unfold Py.getitem in Hg.
        destruct (process self);
          try (injection Hg as <-; split; discriminate).
        destruct (dict_get "workflow" kvs); [discriminate|].
        injection Hg as <-. split; discriminate. }
  destruct (dict_get "id" (items self)) as [id|].
  2:{ injection H as <- <-. left. split; [reflexivity|]. eexists.
      split; [reflexivity|]. split; discriminate. }
  destruct (start_workflow w self id arn (input_url w bucket id) tr)
    as [tr1 r1] eqn:Hs.
  right. exists bucket, arn, id, tr1, r1. auto.
Qed.

(** Every way a launch can end, with what it leaves in the trace. *)
Lemma call_end_states (self : t) (tr tr' : trace) (r : result (option json)) :
  call w self tr = (tr', r) ->
  exists evs,
    tr' = tr ++ evs
    /\ match r with
       | Ok (Some i) =>
           dict_get "id" (items self) = Some i
           /\ exists pre a n inp u,
                evs = pre ++ [StartExecution a n inp;
                              StartedProcessing i (a +:+ ":" +:+ n) u]
       | Ok None =>
           exists pre i u,
             dict_get "id" (items self) = Some i
             /\ evs = pre ++ [Skipping i (Some PROCESSING) u]
       | Raise TerminalError =>
           exists pre i m u,
             dict_get "id" (items self) = Some i
             /\ evs = pre ++ [Failed i m u]
       | Raise (ClientError code msg) =>
           code <> "ConditionalCheckFailedException"
           /\ code <> "StateMachineDoesNotExist"
           /\ forall i m u, ~ In (Failed i m u) evs
       | Raise e =>
           evs = []
           \/ exists pre i u,
                dict_get "id" (items self) = Some i
                /\ evs = pre ++ [Failed i ("failed starting workflow ("
                                           +:+ exn_str e +:+ ")") u]
       end.
Proof.
  intros H. destruct (call_inv self tr tr' r H)
    as [(-> & e & -> & Hne & Hnt)|(bucket & arn & id & tr1 & r1 & _ & _ & Hid & Hs & Hh)].
  { exists []. split; [now rewrite app_nil_r|].
    destruct e; auto; [now destruct (Hne code msg)|congruence]. }
  destruct (start_workflow_trace w self id arn _ tr tr1 r1 Hs)
    as (evs & -> & Hnf & _ & Hok).
  set (U := S3UploadJson (JObj (items self)) (input_url w bucket id)) in *.
  destruct r1 as [i|e].
  - destruct (Hok i eq_refl) as (-> & pre & a & n & inp & ->).
    simpl in Hh. unfold ret in Hh. injection Hh as <- <-.
    exists (U :: pre ++ [StartExecution a n inp;
                         StartedProcessing id (a +:+ ":" +:+ n)
                           (input_url w bucket id)]).
    split; [reflexivity|]. split; [exact Hid|].
    exists (U :: pre), a, n, inp, (input_url w bucket id). reflexivity.
  - assert (Hgen : forall e',
               (forall code msg, e' <> ClientError code msg) ->
               handle id (input_url w bucket id) (Raise e') (tr ++ U :: evs)
               = (tr', r) ->
               exists evs',
                 tr' = tr ++ evs'
                 /\ r = Raise e'
                 /\ exists pre i u,
                      dict_get "id" (items self) = Some i
                      /\ evs' = pre ++ [Failed i ("failed starting workflow ("
                                                  +:+ exn_str e' +:+ ")") u]).
    { intros e' Hne Hh'. rewrite handle_other_exception in Hh' by exact Hne.
      injection Hh' as <- <-.
      exists (U :: evs ++ [Failed id ("failed starting workflow ("
                                       +:+ exn_str e' +:+ ")")
                             (input_url w bucket id)]).
      split; [now rewrite <- app_assoc|]. split; [reflexivity|].
      exists (U :: evs), id, (input_url w bucket id). auto. }
    destruct e;
      try (match type of Hh with
           | handle _ _ (Raise ?e') _ = _ =>
               destruct (Hgen e') as (evs' & -> & -> & Hlast);
               [discriminate|exact Hh|];
               exists evs'; split; [reflexivity|]; right; exact Hlast
           end; fail).
    + unfold handle in Hh.
      destruct (String.eqb code "ConditionalCheckFailedException") eqn:E1.
      * unfold bind, record, ret in Hh. injection Hh as <- <-.
        exists (U :: evs ++ [Skipping id (Some PROCESSING) (input_url w bucket id)]).
        split; [now rewrite <- app_assoc|].
        exists (U :: evs), id, (input_url w bucket id). auto.
      * destruct (String.eqb code "StateMachineDoesNotExist") eqn:E2.
        -- unfold bind, record, throw in Hh. injection Hh as <- <-.
           exists (U :: evs ++ [Failed id (exn_str (ClientError code msg))
                                  (input_url w bucket id)]).
           split; [now rewrite <- app_assoc|].
           exists (U :: evs), id, (exn_str (ClientError code msg)),
             (input_url w bucket id). auto.
        -- unfold throw in Hh. injection Hh as <- <-.
           exists (U :: evs). split; [reflexivity|].
           apply String.eqb_neq in E1, E2. repeat split; auto.
           intros i m u [Hin|Hin]; [unfold U in Hin; discriminate|].
           eapply Hnf; eauto.
    + destruct (Hgen TerminalError) as (evs' & -> & -> & pre & i & u & Hi & ->);
        [discriminate|exact Hh|].
      exists (pre ++ [Failed i ("failed starting workflow ("
                                +:+ exn_str TerminalError +:+ ")") u]).
      split; [reflexivity|]. eauto 6.
Qed.

(** X8. How a launch can end.  Whatever was in the trace stays; then:
    an identity is returned only as the last thing after a start
    request and a [started] record, and it is the envelope's own;
    [None] is returned only after a [skipping] record; [TerminalError]
    is raised only after a [failed] record for the envelope; a client
    error that reaches the caller has a code other than the two the
    handler knows and left no [failed] record; any other exception
    either was raised before anything was called or was recorded as
    failed, with the text of the exception in the message, before it
    was raised again. *)
Theorem call_outcome (self : t) (tr tr' : trace) (r : result (option json)) :
  call w self tr = (tr', r) ->
  exists evs,
    tr' = tr ++ evs
    /\ match r with
       | Ok (Some i) =>
           dict_get "id" (items self) = Some i
           /\ exists pre a n inp u,
                evs = pre ++ [StartExecution a n inp;
                              StartedProcessing i (a +:+ ":" +:+ n) u]
       | Ok None =>
           exists pre i u,
             dict_get "id" (items self) = Some i
             /\ evs = pre ++ [Skipping i (Some PROCESSING) u]
       | Raise TerminalError =>
           exists pre i m u,
             dict_get "id" (items self) = Some i
             /\ evs = pre ++ [Failed i m u]
       | Raise (ClientError code msg) =>
           code <> "ConditionalCheckFailedException"
           /\ code <> "StateMachineDoesNotExist"
           /\ forall i m u, ~ In (Failed i m u) evs
       | Raise e =>
           evs = []
           \/ exists pre i u,
                dict_get "id" (items self) = Some i
                /\ evs = pre ++ [Failed i ("failed starting workflow ("
                                           +:+ exn_str e +:+ ")") u]
       end.
Proof.
  intros H.
  destruct (call_end_states self tr tr' r H) as (evs & Htr & Hend).
  exists evs. split; [exact Htr|exact Hend].
Qed.

(** X9. A launch asks the engine to start an execution only after its
    claim on the state store succeeded, and the start request names the
    execution that the claim returned. *)
Theorem call_start_requires_claim (self : t) (tr tr' : trace)
    (r : result (option json)) :
  call w self tr = (tr', r) ->
  exists evs,
    tr' = tr ++ evs
    /\ forall a n inp,
         In (StartExecution a n inp) evs ->
         exists id url,
           In (ClaimProcessing id url a) evs
           /\ claim_processing w (tr ++ [S3UploadJson (JObj (items self)) url])
                id url a = Ok n.
Proof.
  intros H. destruct (call_inv self tr tr' r H)
    as [(-> & _)|(bucket & arn & id & tr1 & r1 & _ & _ & _ & Hs & Hh)].
  { exists []. split; [now rewrite app_nil_r|]. intros a n inp []. }
  destruct (start_workflow_trace w self id arn _ tr tr1 r1 Hs)
    as (evs & -> & _ & Hst & _).
  set (url := input_url w bucket id) in *.
  assert (Hh' : exists tl,
             tr' = (tr ++ S3UploadJson (JObj (items self)) url :: evs) ++ tl
             /\ forall a n inp, ~ In (StartExecution a n inp) tl).
  { unfold handle in Hh. destruct r1 as [i|e].
    - injection Hh as <- _. exists []. split; [now rewrite app_nil_r|]. easy.
    - destruct e;
        try (unfold bind, record, throw in Hh; injection Hh as <- _;
             eexists; split; [reflexivity|];
             intros a n inp [Hin|[]]; discriminate).
      destruct (String.eqb code "ConditionalCheckFailedException").
      + unfold bind, record, ret in Hh. injection Hh as <- _.
        eexists; split; [reflexivity|].
        intros a n inp [Hin|[]]; discriminate.
      + destruct (String.eqb code "StateMachineDoesNotExist").
        * unfold bind, record, throw in Hh. injection Hh as <- _.
          eexists; split; [reflexivity|].
          intros a n inp [Hin|[]]; discriminate.
        * unfold throw in Hh. injection Hh as <- _.
          exists []. split; [now rewrite app_nil_r|]. easy. }
  destruct Hh' as (tl & -> & Htl).
  exists (S3UploadJson (JObj (items self)) url :: evs ++ tl).
  split; [now rewrite <- app_assoc|].
  intros a n inp [Hin|Hin]; [discriminate|].
  apply in_app_or in Hin. destruct Hin as [Hin|Hin]; [|now destruct (Htl a n inp)].
  destruct (Hst a n inp Hin) as (-> & Hclaim & rest & ->).
  exists id, url. split; [|exact Hclaim]. right. left. reflexivity.
Qed.

(** X10. Once the input is stored, the claim has returned a name and the
    payload is encoded, the answer of the engine decides: when the start
    request and the [started] record go through, the launch returns the
    identity; when the engine says the state machine does not exist, the
    launch records the failure with the text of the error and raises
    [TerminalError]; when the start request raises something that is
    not a client error, the launch records the failure and raises the
    same exception again. *)
Theorem call_start_answers (self : t) (tr tr2 : trace)
    (bucket arn name : string) (id : json) (payload : dict json) :
  getenv_nonempty w "CIRRUS_PAYLOAD_BUCKET" = Some bucket ->
  workflow_arn w self = Ok arn ->
  dict_get "id" (items self) = Some id ->
  s3_upload_json w tr (JObj (items self)) (input_url w bucket id) = None ->
  claim_processing w
    (tr ++ [S3UploadJson (JObj (items self)) (input_url w bucket id)])
    id (input_url w bucket id) arn = Ok name ->
  get_payload w self
    (tr ++ [S3UploadJson (JObj (items self)) (input_url w bucket id);
            ClaimProcessing id (input_url w bucket id) arn])
  = (tr2, Ok payload) ->
  (start_execution w tr2 arn name (json_dumps w (JObj payload)) = None ->
   started_processing w
     (tr2 ++ [StartExecution arn name (json_dumps w (JObj payload))])
     id (arn +:+ ":" +:+ name) (input_url w bucket id) = None ->
   call w self tr
   = (tr2 ++ [StartExecution arn name (json_dumps w (JObj payload));
              StartedProcessing id (arn +:+ ":" +:+ name)
                (input_url w bucket id)],
      Ok (Some id)))
  /\ (forall msg,
        start_execution w tr2 arn name (json_dumps w (JObj payload))
        = Some (ClientError "StateMachineDoesNotExist" msg) ->
        call w self tr
        = (tr2 ++ [StartExecution arn name (json_dumps w (JObj payload));
                   Failed id msg (input_url w bucket id)],
           Raise TerminalError))
  /\ (forall e,
        start_execution w tr2 arn name (json_dumps w (JObj payload)) = Some e ->
        (forall code msg, e <> ClientError code msg) ->
        call w self tr
        = (tr2 ++ [StartExecution arn name (json_dumps w (JObj payload));
                   Failed id ("failed starting workflow (" +:+ exn_str e +:+ ")")
                     (input_url w bucket id)],
           Raise e)).
Proof.
  intros Henv Harn Hid Hup Hclaim Hgp.
  assert (Hcall : call w self tr
                  = let '(tr1, r1) :=
                      start_workflow w self id arn (input_url w bucket id) tr in
                    handle id (input_url w bucket id) r1 tr1).
  { unfold call, bind, lift. now rewrite Henv, Harn, Hid. }
  rewrite Hcall, start_workflow_eq, Hup, Hclaim, Hgp.
  split; [|split].
  - intros Hs Hsp. now rewrite Hs, Hsp.
  - intros msg Hs. rewrite Hs, handle_state_machine_missing.
    now rewrite <- app_assoc.
  - intros e Hs Hne. rewrite Hs, handle_other_exception by exact Hne.
    now rewrite <- app_assoc.
Qed.

End LaunchOutcomes.

(** ** Batches, in full *)

Section BatchExtras.
Import ProcessPayloads.

Variable w : World.

Lemma eq_atom_euclid i a x :
  Py.eq_atom i a = true -> Py.eq_atom i x = true -> Py.eq_atom a x = true.
Proof.
  destruct i as [|b|n|s| |], a as [|b'|n'|s'| |], x as [|b''|n''|s''| |];
    simpl; try discriminate; try reflexivity;
    rewrite ?Z.eqb_eq, ?String.eqb_eq, ?Bool.eqb_true_iff;
    try (destruct b); try (destruct b'); try (destruct b'');
    intros; subst; try reflexivity; try discriminate; try lia.
Qed.

Lemma occurrences_app i l l' :
  Tally.occurrences i (l ++ l')
  = (Tally.occurrences i l + Tally.occurrences i l')%nat.
Proof. unfold Tally.occurrences. now rewrite List.filter_app, length_app. Qed.

Lemma occurrences_single i a :
  Tally.occurrences i [a] = if Py.eq_atom i a then 1%nat else 0%nat.
Proof. unfold Tally.occurrences. simpl. now destruct (Py.eq_atom i a). Qed.

Lemma occurrences_zero i l :
  Py.in_list i l = false -> Tally.occurrences i l = 0%nat.
Proof.
  unfold Py.in_list, Tally.occurrences.
  induction l as [|x l IH]; simpl; [reflexivity|].
  destruct (Py.eq_atom i x); simpl; [discriminate|exact IH].
Qed.

Lemma in_list_euclid i a l :
  Py.eq_atom i a = true -> Py.in_list a l = false -> Py.in_list i l = false.
Proof.
  unfold Py.in_list. intros Hia. induction l as [|x l IH]; simpl; [reflexivity|].
  intros H. apply orb_false_elim in H. destruct H as [Hax Hl].
  rewrite (IH Hl), orb_false_r.
  destruct (Py.eq_atom i x) eqn:E; [|reflexivity].
  now rewrite (eq_atom_euclid i a x Hia E) in Hax.
Qed.

(** A turn of the loop that returns: what it appended, on which test,
    and what it left in the trace. *)
Lemma process_step_cases replace states r payload tr tr' r' :
  process_step w replace states r payload tr = (tr', Ok r') ->
  exists id evs,
    dict_get "id" (ProcessPayload.items payload) = Some id
    /\ Py.hashable id = true
    /\ tr' = tr ++ evs
    /\ (r' = add_dropped r id /\ seen r id = true
        /\ evs = [Duplicated id (payload_id_to_url w id)]
        \/ seen r id = false
           /\ (r' = add_started r id
               /\ (exists a u, In (StartedProcessing id a u) evs)
               \/ r' = add_skipped r id
                  /\ (exists st u, In (Skipping id st u) evs)
               \/ r' = add_failed r id
                  /\ (exists m u, In (Failed id m u) evs))).
Proof.
  unfold process_step, bind, lift, item. intros H.
  destruct (replace_flag replace payload) as [rp|]; [|discriminate].
  destruct (dict_get "id" (ProcessPayload.items payload)) as [id|] eqn:Hid;
    [|discriminate].
  destruct (states_get states id) as [st|] eqn:Hst; [|discriminate].
  exists id.
  destruct (seen r id) eqn:Hseen.
  - unfold record, ret in H. injection H as <- <-.
    eexists. split; [reflexivity|]. split; [eapply states_get_hashable; eauto|].
    split; [reflexivity|]. left. auto.
  - destruct (may_start st rp).
    + unfold attempt in H.
      destruct (Launch.call w payload tr) as [tr1 rc] eqn:Hc.
      destruct (call_end_states w payload tr tr1 rc Hc) as (evs & -> & Hout).
      exists evs. split; [reflexivity|].
      split; [eapply states_get_hashable; eauto|]. split.
      { destruct rc as [[i|]|e]; try (injection H as <- _; reflexivity).
        destruct e; try discriminate. injection H as <- _. reflexivity. }
      right. split; [reflexivity|].
      destruct rc as [[i|]|e].
      * destruct Hout as (Hi & pre & a & n & inp & u & ->).
        rewrite Hid in Hi. injection Hi as <-. injection H as _ <-.
        left. split; [reflexivity|]. exists (a +:+ ":" +:+ n), u.
        apply in_or_app. right. right. left. reflexivity.
      * destruct Hout as (pre & i & u & Hi & ->).
        rewrite Hid in Hi. injection Hi as <-. injection H as _ <-.
        right. left. split; [reflexivity|]. exists (Some PROCESSING), u.
        apply in_or_app. right. left. reflexivity.
      * destruct e; try discriminate.
        destruct Hout as (pre & i & m & u & Hi & ->).
        rewrite Hid in Hi. injection Hi as <-. injection H as _ <-.
        right. right. split; [reflexivity|]. exists m, u.
        apply in_or_app. right. left. reflexivity.
    + unfold record, ret in H. injection H as <- <-.
      eexists. split; [reflexivity|].
      split; [eapply states_get_hashable; eauto|]. split; [reflexivity|].
      right. split; [reflexivity|]. right. left. split; [reflexivity|].
      exists st, (payload_id_to_url w id). left. reflexivity.
Qed.

Lemma process_split self replace tr tr' r :
  process w self replace tr = (tr', Ok r) ->
  exists states tr0,
    get_states w self tr = (tr0, Ok states)
    /\ process_loop w replace states (payloads self) no_ids tr0 = (tr', Ok r).
Proof.
  unfold process, bind. intros H.
  destruct (get_states w self tr) as [tr0 [states|e]]; [|discriminate].
  eauto.
Qed.

(** An invariant of the loop that every returning turn keeps holds of
    the result of a returning run. *)
Lemma process_loop_invariant (P : ids -> trace -> Prop) replace states :
  (forall r payload tr tr' r',
     P r tr -> process_step w replace states r payload tr = (tr', Ok r') ->
     P r' tr') ->
  forall ps r tr tr' r',
    P r tr -> process_loop w replace states ps r tr = (tr', Ok r') -> P r' tr'.
Proof.
  intros Hstep ps. induction ps as [|p ps IH]; simpl; intros r tr tr' r' HP H.
  - unfold ret in H. injection H as <- <-. exact HP.
  - unfold bind in H.
    destruct (process_step w replace states r p tr) as [tr1 [r1|e]] eqn:Hs;
      [|discriminate].
    eapply IH; [|exact H]. eapply Hstep; eauto.
Qed.

(** X11. A call of [process] that returns has put every envelope of the
    batch in exactly one of the four lists: together they hold as many
    identities as the batch has envelopes. *)
Theorem process_accounts_for_every_envelope (self : t) (replace : bool)
    (tr tr' : trace) (r : ids) :
  process w self replace tr = (tr', Ok r) ->
  Tally.total r = length (payloads self).
Proof.
  intros H. destruct (process_split _ _ _ _ _ H) as (states & tr0 & _ & Hl).
  clear H.
  assert (Hgen : forall ps r0 tr1 tr2 r2,
             process_loop w replace states ps r0 tr1 = (tr2, Ok r2) ->
             Tally.total r2 = (Tally.total r0 + length ps)%nat).
  { induction ps as [|p ps IH]; simpl; intros r0 tr1 tr2 r2 H.
    - unfold ret in H. injection H as _ <-. lia.
    - unfold bind in H.
      destruct (process_step w replace states r0 p tr1) as [tr3 [r3|e]] eqn:Hs;
        [|discriminate].
      rewrite (IH _ _ _ _ H).
      destruct (process_step_ok _ _ _ _ _ _ _ _ Hs) as (id & _ & _ & Hc).
      destruct Hc as [ [-> _] | [ -> | [ -> | -> ] ] ];
        unfold Tally.total; simpl; rewrite length_app; simpl; lia. }
  now rewrite (Hgen _ _ _ _ _ Hl).
Qed.

(** X12. The four lists are not disjoint: in the result of [process],
    every identity in [dropped] is also in [started], [skipped] or
    [failed], and a [Duplicated] event was recorded for it. *)
Theorem process_dropped_were_seen (self : t) (replace : bool)
    (tr tr' : trace) (r : ids) :
  process w self replace tr = (tr', Ok r) ->
  forall i,
    In i (dropped r) ->
    seen r i = true /\ exists u, In (Duplicated i u) tr'.
Proof.
  intros H. destruct (process_split _ _ _ _ _ H) as (states & tr0 & _ & Hl).
  clear H.
  apply (process_loop_invariant
           (fun r tr => forall i, In i (dropped r) ->
                                  seen r i = true
                                  /\ exists u, In (Duplicated i u) tr)
           replace states) with (3 := Hl); [|intros i []].
  clear. intros r payload tr tr' r' Hinv Hs i Hi.
  destruct (process_step_cases _ _ _ _ _ _ _ Hs)
    as (id & evs & Hid & Hh & -> & Hc).
  destruct (process_step_seen _ _ _ _ _ _ _ _ _ Hs Hid) as (Hseen & _ & Hmono).
  assert (Hold : In i (dropped r) ->
                 seen r' i = true /\ exists u, In (Duplicated i u) (tr ++ evs)).
  { intros Hin. destruct (Hinv i Hin) as (Hs1 & u & Hu).
    split; [auto|]. exists u. apply in_or_app. auto. }
  destruct Hc as [(-> & _ & ->)|(_ & [(-> & _)|[(-> & _)|(-> & _)]])];
    simpl in Hi; auto.
  apply in_app_or in Hi. destruct Hi as [Hi|[<-|[]]]; [auto|].
  split; [exact Hseen|]. exists (payload_id_to_url w id).
  apply in_or_app. right. left. reflexivity.
Qed.

(** X13. In the result of [process] no identity has two outcomes:
    counted with Python's [==], an identity occurs at most once in
    [started], [skipped] and [failed] taken together. *)
Theorem process_one_outcome_per_identity (self : t) (replace : bool)
    (tr tr' : trace) (r : ids) :
  process w self replace tr = (tr', Ok r) ->
  forall i, (Tally.outcomes r i <= 1)%nat.
Proof.
  intros H. destruct (process_split _ _ _ _ _ H) as (states & tr0 & _ & Hl).
  clear H.
  apply (process_loop_invariant
           (fun r _ => forall i, (Tally.outcomes r i <= 1)%nat)
           replace states) with (3 := Hl);
    [|intros i; unfold Tally.outcomes, Tally.occurrences; simpl; lia].
  clear. intros r payload tr tr' r' Hinv Hs i.
  destruct (process_step_cases _ _ _ _ _ _ _ Hs)
    as (id & evs & Hid & Hh & -> & Hc).
  destruct Hc as [(-> & _)|(Hseen & Hc)]; [apply Hinv|].
  assert (Hnew : Py.eq_atom i id = true -> Tally.outcomes r i = 0%nat).
  { intros Hi. unfold seen in Hseen.
    apply orb_false_elim in Hseen. destruct Hseen as [Hseen Hf].
    apply orb_false_elim in Hseen. destruct Hseen as [Hst Hsk].
    unfold Tally.outcomes.
    rewrite !occurrences_zero; eauto using in_list_euclid. }
  specialize (Hinv i).
  unfold Tally.outcomes in *.
  destruct Hc as [(-> & _)|[(-> & _)|(-> & _)]]; simpl;
    rewrite occurrences_app, occurrences_single;
    (destruct (Py.eq_atom i id) eqn:E;
     [specialize (Hnew eq_refl); lia|lia]).
Qed.

(** X14. What [process] reports was recorded: an identity in [started]
    has a [started] record in the trace, one in [skipped] a [skipping]
    record, one in [failed] a [failed] record. *)
Theorem process_results_are_recorded (self : t) (replace : bool)
    (tr tr' : trace) (r : ids) :
  process w self replace tr = (tr', Ok r) ->
  (forall i, In i (started r) -> exists a u, In (StartedProcessing i a u) tr')
  /\ (forall i, In i (skipped r) -> exists st u, In (Skipping i st u) tr')
  /\ (forall i, In i (failed r) -> exists m u, In (Failed i m u) tr').
Proof.
  intros H. destruct (process_split _ _ _ _ _ H) as (states & tr0 & _ & Hl).
  clear H.
  apply (process_loop_invariant
           (fun r tr =>
              (forall i, In i (started r) ->
                         exists a u, In (StartedProcessing i a u) tr)
              /\ (forall i, In i (skipped r) ->
                            exists st u, In (Skipping i st u) tr)
              /\ (forall i, In i (failed r) ->
                            exists m u, In (Failed i m u) tr))
           replace states) with (3 := Hl);
    [|repeat split; intros i []].
  clear. intros r payload tr tr' r' (H1 & H2 & H3) Hs.
  destruct (process_step_cases _ _ _ _ _ _ _ Hs)
    as (id & evs & Hid & Hh & -> & Hc).
  assert (K1 : forall i, In i (started r) ->
                         exists a u, In (StartedProcessing i a u) (tr ++ evs)).
  { intros i Hi. destruct (H1 i Hi) as (a & u & Hin).
    exists a, u. apply in_or_app. auto. }
  assert (K2 : forall i, In i (skipped r) ->
                         exists st u, In (Skipping i st u) (tr ++ evs)).
  { intros i Hi. destruct (H2 i Hi) as (a & u & Hin).
    exists a, u. apply in_or_app. auto. }
  assert (K3 : forall i, In i (failed r) ->
                         exists m u, In (Failed i m u) (tr ++ evs)).
  { intros i Hi. destruct (H3 i Hi) as (a & u & Hin).
    exists a, u. apply in_or_app. auto. }
  destruct Hc as [(-> & _)|(_ & [(-> & a & u & Hin)|[(-> & a & u & Hin)|(-> & a & u & Hin)]])];
    simpl; repeat split; auto;
    intros i Hi; apply in_app_or in Hi; destruct Hi as [Hi|[<-|[]]]; auto;
    exists a, u; apply in_or_app; auto.
Qed.

End BatchExtras.

Section BatchDecisions.
Import ProcessPayloads.

Variable w : World.

Lemma dict_get_app_last {V} (k k' : string) (v : V) (d : dict V) :
  dict_get k (d ++ [(k', v)])
  = match dict_get k d with
    | Some x => Some x
    | None => if String.eqb k k' then Some v else None
    end.
Proof.
  induction d as [|[k0 v0] d IH]; simpl; [reflexivity|].
  destruct (String.eqb k k0); [reflexivity|exact IH].
Qed.

Lemma states_of_fold (its : list (string * StateEnum)) (d : dict StateEnum) k :
  dict_get k (fold_left (fun d kv => dict_set (fst kv) (snd kv) d) its d)
  = match dict_get k (rev its) with
    | Some v => Some v
    | None => dict_get k d
    end.
Proof.
  revert d. induction its as [|[k0 v0] its IH]; intros d; simpl; [reflexivity|].
  rewrite IH, dict_get_app_last.
  destruct (dict_get k (rev its)); [reflexivity|].
  destruct (String.eqb k k0) eqn:E.
  - apply String.eqb_eq in E. subst. apply dict_get_set_eq.
  - apply dict_get_set_ne. apply String.eqb_neq in E. congruence.
Qed.

(** X15. For an envelope whose identity has no outcome yet, the stored
    state and the replace flag decide.  With no stored state, with
    [FAILED] or [ABORTED], or with the flag set, the turn is a launch
    and nothing else.  With any other state and the flag not set, the
    turn records a skipping event that carries the stored state and
    adds the identity to [skipped]; no call of the launch is made.  The
    [replace] argument of [process] sets the flag whatever the step
    says. *)
Theorem process_step_decision (replace : bool) (states : dict StateEnum)
    (r : ids) (payload : ProcessPayload.t) (tr : trace) (id : json)
    (st : option StateEnum) (rp : bool) :
  replace_flag replace payload = Ok rp ->
  dict_get "id" (ProcessPayload.items payload) = Some id ->
  states_get states id = Ok st ->
  seen r id = false ->
  (st = None \/ st = Some FAILED \/ st = Some ABORTED \/ rp = true ->
   process_step w replace states r payload tr = attempt w r id payload tr)
  /\ (forall s,
        st = Some s -> s <> FAILED -> s <> ABORTED -> rp = false ->
        process_step w replace states r payload tr
        = (tr ++ [Skipping id (Some s) (payload_id_to_url w id)],
           Ok (add_skipped r id)))
  /\ (replace = true -> rp = true).
Proof.
  intros Hrp Hid Hst Hseen.
  assert (Hstep : process_step w replace states r payload tr
                  = if may_start st rp then attempt w r id payload tr
                    else (tr ++ [Skipping id st (payload_id_to_url w id)],
                          Ok (add_skipped r id))).
  { unfold process_step, bind, lift, item.
    rewrite Hrp, Hid, Hst, Hseen. now destruct (may_start st rp). }
  rewrite Hstep. split; [|split].
  - intros [ -> | [ -> | [ -> | -> ] ] ]; try reflexivity.
    unfold may_start. now rewrite orb_true_r.
  - intros s -> Hf Ha ->. unfold may_start. simpl.
    destruct s; try reflexivity; congruence.
  - intros ->. unfold replace_flag in Hrp. congruence.
Qed.

(** X16. With state items supplied, [get_states] asks nobody and, when
    several items name the same payload, uses the state of the last
    one. *)
Theorem get_states_last_item_wins (self : t) (tr : trace)
    (its : list (string * StateEnum)) :
  state_items self = Some its ->
  get_states w self tr = (tr, Ok (states_of its))
  /\ forall k, dict_get k (states_of its) = dict_get k (rev its).
Proof.
  intros H. unfold get_states. rewrite H. split; [reflexivity|].
  intros k. unfold states_of. rewrite states_of_fold.
  now destruct (dict_get k (rev its)).
Qed.

End BatchDecisions.

(** ** The further properties on the sample envelopes *)

Lemma successor_shape_witness :
  exists new,
    ProcessPayload.successor Reference.healthy Reference.chain Samples.mosaic
    = Ok new
    /\ dict_get "id" (ProcessPayload.items new) = None
    /\ dict_get "process" (ProcessPayload.items new)
       = Some (JArr [Samples.mosaic])
    /\ ProcessPayload.process new = ProcessPayload.process Reference.chain
    /\ forall st,
         exists e,
           ProcessPayload.init Reference.healthy (ProcessPayload.items new)
             false st = Raise e.
Proof.
  assert (Hs : exists new,
             ProcessPayload.successor Reference.healthy Reference.chain
               Samples.mosaic = Ok new)
    by (vm_compute; eauto).
  destruct Hs as [new Hs]. exists new. split; [exact Hs|].
  assert (Hnd : NoDup (map fst (ProcessPayload.items Reference.chain)))
    by (apply (bool_decide_unpack (NoDup _)); vm_compute; exact I).
  destruct (successor_shape Reference.healthy Reference.chain new
              (Reference.step "publish" []) Samples.mosaic Samples.mosaic []
              Hnd eq_refl Hs)
    as (H1 & H2 & _ & _ & H5 & _ & _ & H8).
  auto.
Defined.

Lemma next_payloads_sequence_witness :
  exists news,
    ProcessPayload.next_payloads Reference.healthy Samples.fanout = (news, None)
    /\ length news = 2%nat.
Proof.
  assert (Hs : exists news,
             rmap (ProcessPayload.successor Reference.healthy Samples.fanout)
               [Reference.step "mosaic" []; Reference.step "tiles" []]
             = Ok news)
    by (vm_compute; eauto).
  destruct Hs as [news Hs]. exists news.
  apply (proj1 (next_payloads_sequence Reference.healthy Samples.fanout
                  (Reference.step "publish" [])
                  [Reference.step "mosaic" []; Reference.step "tiles" []] []
                  eq_refl) news Hs).
Defined.

Lemma call_outcome_witness :
  exists evs,
    fst (Launch.call Reference.healthy Reference.single []) = [] ++ evs
    /\ dict_get "id" (ProcessPayload.items Reference.single)
       = Some (JStr "c1/c2/workflow-publish/a/b/c")
    /\ exists pre a n inp u,
         evs = pre ++ [StartExecution a n inp;
                       StartedProcessing (JStr "c1/c2/workflow-publish/a/b/c")
                         (a +:+ ":" +:+ n) u].
Proof.
  apply (call_outcome Reference.healthy Reference.single []
           (fst (Launch.call Reference.healthy Reference.single []))
           (Ok (Some (JStr "c1/c2/workflow-publish/a/b/c")))).
  vm_compute. reflexivity.
Defined.

Lemma call_start_requires_claim_witness :
  exists evs,
    fst (Launch.call Reference.healthy Reference.single []) = [] ++ evs
    /\ forall a n inp,
         In (StartExecution a n inp) evs ->
         exists id url,
           In (ClaimProcessing id url a) evs
           /\ claim_processing Reference.healthy
                ([] ++ [S3UploadJson (JObj (ProcessPayload.items Reference.single))
                          url])
                id url a = Ok n.
Proof.
  apply (call_start_requires_claim Reference.healthy Reference.single []
           (fst (Launch.call Reference.healthy Reference.single []))
           (snd (Launch.call Reference.healthy Reference.single []))).
  apply surjective_pairing.
Defined.

Lemma call_start_answers_witness :
  Launch.call Reference.healthy Reference.single []
  = ([S3UploadJson (JObj (ProcessPayload.items Reference.single))
        "s3://payloads/c1/c2/workflow-publish/a/b/c/input.json";
      ClaimProcessing (JStr "c1/c2/workflow-publish/a/b/c")
        "s3://payloads/c1/c2/workflow-publish/a/b/c/input.json"
        "arn:aws:states:us-west-2:123456789012:stateMachine:publish";
      StartExecution "arn:aws:states:us-west-2:123456789012:stateMachine:publish"
        "exec-1"
        (Reference.dumps (JObj (ProcessPayload.items Reference.single)));
      StartedProcessing (JStr "c1/c2/workflow-publish/a/b/c")
        "arn:aws:states:us-west-2:123456789012:stateMachine:publish:exec-1"
        "s3://payloads/c1/c2/workflow-publish/a/b/c/input.json"],
     Ok (Some (JStr "c1/c2/workflow-publish/a/b/c")))
  /\ Launch.call Reference.undeployed Reference.single []
     = ([S3UploadJson (JObj (ProcessPayload.items Reference.single))
           "s3://payloads/c1/c2/workflow-publish/a/b/c/input.json";
         ClaimProcessing (JStr "c1/c2/workflow-publish/a/b/c")
           "s3://payloads/c1/c2/workflow-publish/a/b/c/input.json"
           "arn:aws:states:us-west-2:123456789012:stateMachine:publish";
         StartExecution "arn:aws:states:us-west-2:123456789012:stateMachine:publish"
           "exec-1"
           (Reference.dumps (JObj (ProcessPayload.items Reference.single)));
         Failed (JStr "c1/c2/workflow-publish/a/b/c")
           "State Machine Does Not Exist"
           "s3://payloads/c1/c2/workflow-publish/a/b/c/input.json"],
        Raise TerminalError).
Proof.
  split.
  - apply (proj1 (call_start_answers Reference.healthy Reference.single []
                    [S3UploadJson (JObj (ProcessPayload.items Reference.single))
                       "s3://payloads/c1/c2/workflow-publish/a/b/c/input.json";
                     ClaimProcessing (JStr "c1/c2/workflow-publish/a/b/c")
                       "s3://payloads/c1/c2/workflow-publish/a/b/c/input.json"
                       "arn:aws:states:us-west-2:123456789012:stateMachine:publish"]
                    "payloads"
                    "arn:aws:states:us-west-2:123456789012:stateMachine:publish"
                    "exec-1" (JStr "c1/c2/workflow-publish/a/b/c")
                    (ProcessPayload.items Reference.single)
                    eq_refl eq_refl eq_refl eq_refl eq_refl
                    ltac:(vm_compute; reflexivity)));
      reflexivity.
  - apply (proj1 (proj2 (call_start_answers Reference.undeployed
                    Reference.single []
                    [S3UploadJson (JObj (ProcessPayload.items Reference.single))
                       "s3://payloads/c1/c2/workflow-publish/a/b/c/input.json";
                     ClaimProcessing (JStr "c1/c2/workflow-publish/a/b/c")
                       "s3://payloads/c1/c2/workflow-publish/a/b/c/input.json"
                       "arn:aws:states:us-west-2:123456789012:stateMachine:publish"]
                    "payloads"
                    "arn:aws:states:us-west-2:123456789012:stateMachine:publish"
                    "exec-1" (JStr "c1/c2/workflow-publish/a/b/c")
                    (ProcessPayload.items Reference.single)
                    eq_refl eq_refl eq_refl eq_refl eq_refl
                    ltac:(vm_compute; reflexivity)))
             "State Machine Does Not Exist").
    reflexivity.
Defined.

Lemma twice_processed :
  ProcessPayloads.process Reference.healthy Samples.twice false []
  = (fst (ProcessPayloads.process Reference.healthy Samples.twice false []),
     Ok (ProcessPayloads.mk_ids [JStr "c1/c2/workflow-publish/a/b/c"] []
           [JStr "c1/c2/workflow-publish/a/b/c"] [])).
Proof. vm_compute. reflexivity. Qed.

Lemma process_accounts_for_every_envelope_witness :
  Tally.total (ProcessPayloads.mk_ids [JStr "c1/c2/workflow-publish/a/b/c"] []
                 [JStr "c1/c2/workflow-publish/a/b/c"] [])
  = length (ProcessPayloads.payloads Samples.twice).
Proof.
  exact (process_accounts_for_every_envelope Reference.healthy Samples.twice
           false [] _ _ twice_processed).
Defined.

Lemma process_dropped_were_seen_witness :
  ProcessPayloads.seen
    (ProcessPayloads.mk_ids [JStr "c1/c2/workflow-publish/a/b/c"] []
       [JStr "c1/c2/workflow-publish/a/b/c"] [])
    (JStr "c1/c2/workflow-publish/a/b/c") = true
  /\ exists u,
       In (Duplicated (JStr "c1/c2/workflow-publish/a/b/c") u)
          (fst (ProcessPayloads.process Reference.healthy Samples.twice false [])).
Proof.
  apply (process_dropped_were_seen Reference.healthy Samples.twice false [] _ _
           twice_processed).
  left. reflexivity.
Defined.

Lemma process_one_outcome_per_identity_witness :
  (Tally.outcomes
     (ProcessPayloads.mk_ids [JStr "c1/c2/workflow-publish/a/b/c"] []
        [JStr "c1/c2/workflow-publish/a/b/c"] [])
     (JStr "c1/c2/workflow-publish/a/b/c") <= 1)%nat.
Proof.
  exact (process_one_outcome_per_identity Reference.healthy Samples.twice
           false [] _ _ twice_processed (JStr "c1/c2/workflow-publish/a/b/c")).
Defined.

Lemma process_results_are_recorded_witness :
  exists a u,
    In (StartedProcessing (JStr "c1/c2/workflow-publish/a/b/c") a u)
       (fst (ProcessPayloads.process Reference.healthy Samples.twice false [])).
Proof.
  apply (proj1 (process_results_are_recorded Reference.healthy Samples.twice
                  false [] _ _ twice_processed)).
  left. reflexivity.
Defined.

Lemma process_step_decision_witness :
  ProcessPayloads.process_step Reference.healthy false
    [("c1/c2/workflow-publish/a/b/c", COMPLETED)] ProcessPayloads.no_ids
    Reference.single []
  = ([] ++ [Skipping (JStr "c1/c2/workflow-publish/a/b/c") (Some COMPLETED)
              (payload_id_to_url Reference.healthy
                 (JStr "c1/c2/workflow-publish/a/b/c"))],
     Ok (ProcessPayloads.add_skipped ProcessPayloads.no_ids
           (JStr "c1/c2/workflow-publish/a/b/c"))).
Proof.
  apply (proj1 (proj2 (process_step_decision Reference.healthy false
                         [("c1/c2/workflow-publish/a/b/c", COMPLETED)]
                         ProcessPayloads.no_ids Reference.single []
                         (JStr "c1/c2/workflow-publish/a/b/c")
                         (Some COMPLETED) false
                         eq_refl eq_refl eq_refl eq_refl))
           COMPLETED);
    try reflexivity; discriminate.
Defined.

Lemma get_states_last_item_wins_witness :
  ProcessPayloads.get_states Reference.healthy
    (ProcessPayloads.mk [Reference.single] (Some Samples.history)) []
  = ([], Ok (ProcessPayloads.states_of Samples.history))
  /\ dict_get "c1/c2/workflow-publish/a/b/c"
       (ProcessPayloads.states_of Samples.history)
     = dict_get "c1/c2/workflow-publish/a/b/c" (rev Samples.history).
Proof.
  destruct (get_states_last_item_wins Reference.healthy
              (ProcessPayloads.mk [Reference.single] (Some Samples.history))
              [] Samples.history eq_refl) as [H1 H2].
  split; [exact H1|apply H2].
Defined.

Example history_lookup :
  dict_get "c1/c2/workflow-publish/a/b/c"
    (ProcessPayloads.states_of Samples.history) = Some COMPLETED.
Proof. reflexivity. Qed.

(** ** Construction and upload: what is refused *)

Section Refusals.
Import ProcessPayload Launch.

Variable w : World.

(** X17. An envelope without [id] and without features cannot be given
    an identity: construction with [set_id_if_missing] fails with the
    [ValueError] of [set_id], whatever the active step contains. *)
Theorem init_needs_features_for_id (raw : dict json) (st : option json)
    (step : json) (rest : list json) :
  dict_get "process" raw = Some (JArr (step :: rest)) ->
  dict_get "id" raw = None ->
  dict_get "features" raw = None \/ dict_get "features" raw = Some (JArr []) ->
  init w raw true st
  = Raise (ValueError "ProcessPayload has no `id` specified and one cannot be constructed without `features`.").
Proof.
  intros Hp Hid Hf. unfold init. rewrite Hp.
  apply dict_mem_false in Hid. rewrite Hid. simpl.
  unfold set_id. simpl. rewrite Hid.
  destruct Hf as [-> | ->]; reflexivity.
Qed.

(** X18. When the raw mapping has an [id], construction succeeds exactly
    when [process] is a non-empty list whose first entry is a mapping
    with [upload_options], [workflow] and [tasks], the [id] contains
    [workflow-], and every feature can be given [links]. *)
Theorem init_succeeds_iff (raw : dict json) (flag : bool) (st : option json)
    (i : json) :
  dict_get "id" raw = Some i ->
  (exists self, init w raw flag st = Ok self)
  <-> exists d rest feats',
        dict_get "process" raw = Some (JArr (JObj d :: rest))
        /\ dict_mem "upload_options" d = true
        /\ dict_mem "workflow" d = true
        /\ dict_mem "tasks" d = true
        /\ Py.contains "workflow-" i = Ok true
        /\ normalize_features
             (match dict_get "features" raw with
              | Some f => f
              | None => JArr []
              end) = Ok feats'.
Proof.
  intros Hid. split.
  - intros [self H].
    destruct (init_inv w raw flag st self H)
      as (step & rest & d & tks & j & feats' & Hp & -> & Hu & Hw & Ht & Hj & Hc & Hn & _).
    exists d, rest, feats'.
    assert (j = i) by (destruct Hj as [Hj|[Hj _]]; congruence). subst j.
    repeat split; auto. apply dict_mem_get. eauto.
  - intros (d & rest & feats' & Hp & Hu & Hw & Ht & Hc & Hn).
    unfold init. rewrite Hp.
    assert (Hm : dict_mem "id" raw = true) by (apply dict_mem_get; eauto).
    rewrite Hm. simpl negb. simpl andb. cbv iota. simpl rbind at 1.
    unfold require. simpl Py.contains. rewrite Hu, Hw, Ht. simpl.
    apply dict_mem_get in Ht. destruct Ht as [tks Ht]. rewrite Ht. simpl.
    rewrite Hid, Hc. simpl. rewrite Hn. simpl. eauto.
Qed.

(** X19. [upload_to_s3] never uploads a payload that has a [url] entry:
    it returns that entry and calls nobody.  Without such an entry and
    without a bucket, neither passed in nor in the environment, it
    raises [KeyError] and calls nobody.  When it returns a location for
    a payload without [url], it has put exactly that payload at exactly
    that location, [s3://<bucket>/payloads/<uuid>.json], where the
    bucket passed in takes precedence over the environment. *)
Theorem upload_to_s3_cases (payload : dict json) (bucket : option string)
    (tr : trace) :
  (forall u, dict_get "url" payload = Some u ->
             upload_to_s3 w payload bucket tr = (tr, Ok u))
  /\ (dict_get "url" payload = None -> bucket = None ->
      getenv w "CIRRUS_PAYLOAD_BUCKET" = None ->
      upload_to_s3 w payload bucket tr
      = (tr, Raise (KeyError "CIRRUS_PAYLOAD_BUCKET")))
  /\ (forall tr' u,
        dict_get "url" payload = None ->
        upload_to_s3 w payload bucket tr = (tr', Ok u) ->
        exists b,
          (bucket = Some b
           \/ bucket = None /\ getenv w "CIRRUS_PAYLOAD_BUCKET" = Some b)
          /\ u = JStr ("s3://" +:+ b +:+ "/payloads/" +:+ uuid1 w tr +:+ ".json")
          /\ tr' = tr ++ [S3UploadJson (JObj payload)
                            ("s3://" +:+ b +:+ "/payloads/" +:+ uuid1 w tr
                             +:+ ".json")]).
Proof.
  unfold upload_to_s3. split; [|split].
  - intros u ->. reflexivity.
  - intros -> -> ->. reflexivity.
  - intros tr' u -> H.
    assert (Hb : forall b,
               bind (call_unit
                       (S3UploadJson (JObj payload)
                          ("s3://" +:+ b +:+ "/payloads/" +:+ uuid1 w tr +:+ ".json"))
                       (fun tr' => s3_upload_json w tr' (JObj payload)
                          ("s3://" +:+ b +:+ "/payloads/" +:+ uuid1 w tr +:+ ".json")))
                    (fun _ => ret (JStr ("s3://" +:+ b +:+ "/payloads/"
                                         +:+ uuid1 w tr +:+ ".json"))) tr
               = (tr', Ok u) ->
               u = JStr ("s3://" +:+ b +:+ "/payloads/" +:+ uuid1 w tr +:+ ".json")
               /\ tr' = tr ++ [S3UploadJson (JObj payload)
                                 ("s3://" +:+ b +:+ "/payloads/" +:+ uuid1 w tr
                                  +:+ ".json")]).
    { intros b Hb. unfold bind, call_unit, ret in Hb.
      destruct (s3_upload_json w tr _ _); [discriminate|].
      injection Hb as <- <-. auto. }
    destruct bucket as [b|].
    + exists b. destruct (Hb b H). auto.
    + destruct (getenv w "CIRRUS_PAYLOAD_BUCKET") as [b|] eqn:He;
        [|discriminate].
      exists b. destruct (Hb b H). auto.
Qed.

End Refusals.

Lemma init_needs_features_for_id_witness :
  ProcessPayload.init Reference.healthy
    [("process", JArr [Reference.step "publish" []]); ("features", JArr [])]
    true None
  = Raise (ValueError "ProcessPayload has no `id` specified and one cannot be constructed without `features`.").
Proof.
  apply (init_needs_features_for_id Reference.healthy _ None
           (Reference.step "publish" []) []); auto.
Defined.

Lemma init_succeeds_iff_witness :
  exists self,
    ProcessPayload.init Reference.healthy Reference.raw_chain false None
    = Ok self.
Proof.
  apply (proj2 (init_succeeds_iff Reference.healthy Reference.raw_chain false
                  None (JStr "c2/workflow-publish/b") eq_refl)).
  exists [("workflow", JStr "publish"); ("upload_options", JObj []);
          ("tasks", JObj [])],
    [Samples.mosaic],
    (JArr [JObj [("id", JStr "b"); ("collection", JStr "c2");
                 ("links", JArr [])]]).
  repeat split; reflexivity.
Defined.

Lemma upload_to_s3_cases_witness :
  Launch.upload_to_s3 Reference.healthy
    (ProcessPayload.items Reference.oversized) None []
  = ([], Ok (JStr "s3://elsewhere/original.json"))
  /\ Launch.upload_to_s3 Reference.bucketless
       (ProcessPayload.items Reference.single) None []
     = ([], Raise (KeyError "CIRRUS_PAYLOAD_BUCKET")).
Proof.
  split.
  - apply (proj1 (upload_to_s3_cases Reference.healthy
                    (ProcessPayload.items Reference.oversized) None [])).
    reflexivity.
  - apply (proj1 (proj2 (upload_to_s3_cases Reference.bucketless
                           (ProcessPayload.items Reference.single) None [])));
      reflexivity.
Defined.
